(** * finance_agent: list view, insights gate, balance card, backend contract

    A shallow embedding of the React components under [frontend/src]
    ([App], [ExpenseList] and [Login] in App.jsx, [Dashboard.jsx],
    [AIInsights.jsx] and its chat revision) and of the part of the backend
    contract the summary rests on (aggregation and obfuscation), with the
    properties the specification states about them and further properties
    of the components.

    JavaScript numbers are IEEE doubles ([PrimFloat.float]); the time value
    of a [Date] is an integer, [None] for an Invalid Date; a string is the
    sequence of bytes of its UTF-8 encoding; JSON [null] is [None].  What
    the components take from the platform ([new Date], date-fns,
    [toLowerCase], [trim], [Array.prototype.sort]) enters as a parameter or
    through the contract ECMAScript gives it.  The backend, whose code is
    not part of the sources, is modelled with exact rationals. *)

From Stdlib Require Import ZArith QArith Qfield Lqa List String Ascii Bool Lia.
From Stdlib Require Import Permutation Sorted.
From Stdlib Require Import Floats DecimalString.
Import ListNotations.

Local Open Scope string_scope.
Local Open Scope Z_scope.

(* ===================================================================== *)
(** * Part I: definitions *)
(* ===================================================================== *)

(** ** The JavaScript operations the components use *)

Module JS.

(** [s.startsWith(t)]. *)
Fixpoint startsWith (s t : string) : bool :=
  match t, s with
  | EmptyString, _ => true
  | String _ _, EmptyString => false
  | String b t', String a s' => Ascii.eqb a b && startsWith s' t'
  end.

(** [s.includes(t)]: [t] occurs in [s] at some position. *)
Fixpoint includes (s t : string) : bool :=
  startsWith s t ||
  match s with
  | EmptyString => false
  | String _ s' => includes s' t
  end.

(** [s.includes(c)] for one character. *)
Fixpoint hasChar (c : ascii) (s : string) : bool :=
  match s with
  | EmptyString => false
  | String a s' => Ascii.eqb a c || hasChar c s'
  end.

(** [s.split(sep)] for a one-character separator; [("").split(",")] is
    the one-element array holding the empty string. *)
Fixpoint split (sep : ascii) (s : string) : list string :=
  match s with
  | EmptyString => [EmptyString]
  | String c s' =>
      if Ascii.eqb c sep then EmptyString :: split sep s'
      else match split sep s' with
           | [] => [String c EmptyString]
           | p :: ps => String c p :: ps
           end
  end.

(** ToBoolean of a string: only the empty string is falsy. *)
Definition truthyStr (s : string) : bool :=
  match s with EmptyString => false | _ => true end.

(** A JSON field that holds a string or [null]: [v && f(v)]. *)
Definition andThen (v : option string) (f : string -> bool) : bool :=
  match v with
  | None => false
  | Some s => truthyStr s && f s
  end.

(** JSON values that reach a boolean test. *)
Inductive Value : Type :=
| Undefined
| Null
| Bool (b : bool)
| Number (x : float)
| Str (s : string).

(** ToBoolean. *)
Definition truthy (v : Value) : bool :=
  match v with
  | Undefined | Null => false
  | Bool b => b
  | Number x => negb (PrimFloat.eqb x 0%float || PrimFloat.is_nan x)
  | Str s => truthyStr s
  end.

(** A number field that may be [null]. [x > 0] converts [null] to [0]. *)
Definition gtZero (v : option float) : bool :=
  match v with
  | None => false
  | Some x => PrimFloat.ltb 0%float x
  end.

(** [v || 0] on a number field: [null], [0], [-0] and [NaN] give [0]. *)
Definition orZero (v : option float) : float :=
  match v with
  | None => 0%float
  | Some x => if PrimFloat.eqb x 0%float || PrimFloat.is_nan x then 0%float else x
  end.

(** The time value of a [Date]: milliseconds since the epoch, [None] for
    an Invalid Date (its time value is NaN). *)
Definition Date : Type := option Z.

(** [a - b] on two dates, NaN when either is invalid. *)
Definition dateMinus (a b : Date) : option Z :=
  match a, b with
  | Some x, Some y => Some (x - y)
  | _, _ => None
  end.

(** [a >= b] on two dates: false when either is invalid. *)
Definition dateGe (a b : Date) : bool :=
  match a, b with
  | Some x, Some y => y <=? x
  | _, _ => false
  end.

(** [new Date(Math.max(...ds))]: NaN as soon as one argument is NaN;
    [Math.max()] of no argument is [-Infinity], not a valid time value. *)
Definition maxStep (acc d : Date) : Date :=
  match acc, d with
  | Some a, Some b => Some (Z.max a b)
  | _, _ => None
  end.

Definition dateOfMax (ds : list Date) : Date :=
  match ds with
  | [] => None
  | d :: ds' => fold_left maxStep ds' d
  end.

(** What [Array.prototype.sort] reads off the number a comparator
    returns: its sign, with NaN read as [+0]. *)
Definition signOfInt (v : option Z) : comparison :=
  match v with
  | None => Eq
  | Some z => Z.compare z 0
  end.

Definition signOfFloat (v : float) : comparison :=
  if PrimFloat.ltb v 0%float then Lt
  else if PrimFloat.ltb 0%float v then Gt
  else Eq.

(** [new Set(values)] followed by [Array.from]: the distinct values in
    the order of their first occurrence. *)
Definition setAdd (seen : list string) (v : string) : list string :=
  if existsb (String.eqb v) seen then seen else (seen ++ [v])%list.

Definition newSet (values : list string) : list string :=
  fold_left setAdd values [].

(** [Array.prototype.sort(compareFn)], for a comparator that is a
    consistent comparison on the elements: ECMAScript (2019 and later)
    then requires the elements in sorted order with equal ones in their
    original order, and there is one such list ([sort_unique] below).  It
    is computed here by insertion from the right, where an element travels
    past exactly the elements it compares greater than.  For a comparator
    that is not consistent the standard leaves the order to the engine and
    [sort] need not be what an engine returns; [sortMayReturn] below says
    what is known then. *)
Section Sort.
Context {A : Type} (compareFn : A -> A -> comparison).

Fixpoint insert (x : A) (l : list A) : list A :=
  match l with
  | [] => [x]
  | y :: l' =>
      match compareFn x y with
      | Gt => y :: insert x l'
      | _ => x :: l
      end
  end.

Fixpoint sort (l : list A) : list A :=
  match l with
  | [] => []
  | x :: l' => insert x (sort l')
  end.
End Sort.

End JS.

(** ** The order of a list and the contract of [Array.prototype.sort] *)

(** [a] stands somewhere before [b] in [l]. *)
Definition precedes {A : Type} (a b : A) (l : list A) : Prop :=
  exists l1 l2 l3, l = (l1 ++ a :: l2 ++ b :: l3)%list.

(** [a] may stand before [b]: the comparator does not ask for a swap. *)
Definition inOrder {A : Type} (compareFn : A -> A -> comparison) (a b : A) : Prop :=
  compareFn a b <> Gt.

(** The comparator returns zero (or NaN) on [a] and [b]. *)
Definition tied {A : Type} (compareFn : A -> A -> comparison) (a b : A) : bool :=
  match compareFn a b with Eq => true | _ => false end.

(** ECMAScript's "consistent comparator", on the values of a domain. *)
Record Consistent {A : Type} (D : A -> Prop)
       (compareFn : A -> A -> comparison) : Prop := {
  cmp_refl : forall a, D a -> compareFn a a = Eq;
  cmp_opp : forall a b, D a -> D b -> compareFn b a = CompOpp (compareFn a b);
  cmp_trans : forall a b c, D a -> D b -> D c ->
      compareFn a b <> Gt -> compareFn b c <> Gt -> compareFn a c <> Gt
}.

(** [rows] is a list that [l.sort(compareFn)] may leave behind, on any
    conforming engine: a rearrangement of [l]; and when the comparator is
    consistent on the elements of [l], one in sorted order in which the
    elements of every class of tied ones stand as they stood in [l].  With
    a comparator that is not consistent only the first is known. *)
Definition sortMayReturn {A : Type} (compareFn : A -> A -> comparison)
           (l rows : list A) : Prop :=
  Permutation rows l
  /\ (Consistent (fun x => In x l) compareFn ->
      StronglySorted (inOrder compareFn) rows
      /\ forall x, In x l ->
           filter (tied compareFn x) rows = filter (tied compareFn x) l).

(** ** One engine: V8

    V8 sorts with TimSort (builtins/array-sort.tq).  An array of fewer
    than 64 elements is one run: [CountAndMakeRun] takes the longest
    ascending, or strictly descending and then reversed, run at the start,
    and [BinaryInsertionSort] inserts the remaining elements one by one at
    the place a binary search finds.  [order x y] is the sign of
    [comparefn(x, y)], NaN read as zero.  This is what [V8.sort] follows;
    longer arrays, which V8 cuts into several runs and merges, are not
    covered. *)

Module V8.
Section TimSort.
Context {A : Type} (order : A -> A -> comparison).

(** The loop of [CountAndMakeRun]: how many further elements extend the
    run. *)
Fixpoint runTail (isDescending : bool) (previousElement : A) (rest : list A) : nat :=
  match rest with
  | [] => O
  | currentElement :: rest' =>
      match order currentElement previousElement, isDescending with
      | Lt, true => S (runTail isDescending currentElement rest')
      | Lt, false => O
      | _, true => O
      | _, false => S (runTail isDescending currentElement rest')
      end
  end.

(** [CountAndMakeRun(0, length)]: the run's length and the array after
    the reversal of a descending run. *)
Definition countAndMakeRun (workArray : list A) : nat * list A :=
  match workArray with
  | [] => (O, workArray)
  | [_] => (1%nat, workArray)
  | elementHigh :: elementLow :: rest =>
      let isDescending :=
        match order elementLow elementHigh with Lt => true | _ => false end in
      let runLength := (2 + runTail isDescending elementLow rest)%nat in
      (runLength,
       if isDescending
       then (rev (firstn runLength workArray) ++ skipn runLength workArray)%list
       else workArray)
  end.

(** The binary search of [BinaryInsertionSort]: [left] when the loop
    [while (left < right)] ends; [steps] bounds its iterations. *)
Fixpoint insertionPoint (steps : nat) (workArray : list A) (pivot : A)
         (left right : nat) : nat :=
  match steps with
  | O => left
  | S steps' =>
      if (left <? right)%nat then
        let mid := (left + Nat.div2 (right - left))%nat in
        match nth_error workArray mid with
        | Some element =>
            match order pivot element with
            | Lt => insertionPoint steps' workArray pivot left mid
            | _ => insertionPoint steps' workArray pivot (mid + 1)%nat right
            end
        | None => left
        end
      else left
  end.

(** One round of [BinaryInsertionSort]: the element at [start] moves to
    its insertion point among the elements before it. *)
Definition insertPivot (workArray : list A) (start : nat) : list A :=
  match nth_error workArray start with
  | None => workArray
  | Some pivot =>
      let left := insertionPoint start workArray pivot O start in
      (firstn left workArray
       ++ pivot :: firstn (start - left) (skipn left workArray)
       ++ skipn (S start) workArray)%list
  end.

Fixpoint binaryInsertionSort (rounds : nat) (start : nat) (workArray : list A) : list A :=
  match rounds with
  | O => workArray
  | S rounds' => binaryInsertionSort rounds' (S start) (insertPivot workArray start)
  end.

Definition sort (array : list A) : list A :=
  let '(runLength, workArray) := countAndMakeRun array in
  binaryInsertionSort (List.length array - runLength) runLength workArray.

End TimSort.
End V8.

(** ** ExpenseList (frontend/src/components/ExpenseList.jsx, in App.jsx) *)

Module ExpenseList.

(** One row of [/api/expenses] or [/api/income] as the component reads
    it; [None] is JSON [null]. *)
Record Expense : Type := {
  Date : option string;
  Category : option string;
  Tags : option string;
  Description : option string;
  Expense_amount : option float;
  Income_amount : option float;
  In_main_currency : option float;
  Main_currency : option string
}.

(** The component's [useState] cells. *)
Record State : Type := {
  tempSortOrder : string;
  tempFilterCategory : string;
  tempSearchTerm : string;
  tempDateRange : string;
  sortOrder : string;
  filterCategory : string;
  searchTerm : string;
  dateRange : string
}.

Definition initialState : State := {|
  tempSortOrder := "date-desc";
  tempFilterCategory := "All";
  tempSearchTerm := "";
  tempDateRange := "3months";
  sortOrder := "date-desc";
  filterCategory := "All";
  searchTerm := "";
  dateRange := "3months"
|}.

Definition withDateRange (st : State) (v : string) : State := {|
  tempSortOrder := tempSortOrder st;
  tempFilterCategory := tempFilterCategory st;
  tempSearchTerm := tempSearchTerm st;
  tempDateRange := tempDateRange st;
  sortOrder := sortOrder st;
  filterCategory := filterCategory st;
  searchTerm := searchTerm st;
  dateRange := v
|}.

Definition withSearchTerm (st : State) (v : string) : State := {|
  tempSortOrder := tempSortOrder st;
  tempFilterCategory := tempFilterCategory st;
  tempSearchTerm := tempSearchTerm st;
  tempDateRange := tempDateRange st;
  sortOrder := sortOrder st;
  filterCategory := filterCategory st;
  searchTerm := v;
  dateRange := dateRange st
|}.

(** The [onChange] handlers of the four controls: they write the
    temporary cells only. *)
Definition setTempSortOrder (v : string) (st : State) : State := {|
  tempSortOrder := v;
  tempFilterCategory := tempFilterCategory st;
  tempSearchTerm := tempSearchTerm st;
  tempDateRange := tempDateRange st;
  sortOrder := sortOrder st;
  filterCategory := filterCategory st;
  searchTerm := searchTerm st;
  dateRange := dateRange st
|}.

Definition setTempFilterCategory (v : string) (st : State) : State := {|
  tempSortOrder := tempSortOrder st;
  tempFilterCategory := v;
  tempSearchTerm := tempSearchTerm st;
  tempDateRange := tempDateRange st;
  sortOrder := sortOrder st;
  filterCategory := filterCategory st;
  searchTerm := searchTerm st;
  dateRange := dateRange st
|}.

Definition setTempSearchTerm (v : string) (st : State) : State := {|
  tempSortOrder := tempSortOrder st;
  tempFilterCategory := tempFilterCategory st;
  tempSearchTerm := v;
  tempDateRange := tempDateRange st;
  sortOrder := sortOrder st;
  filterCategory := filterCategory st;
  searchTerm := searchTerm st;
  dateRange := dateRange st
|}.

Definition setTempDateRange (v : string) (st : State) : State := {|
  tempSortOrder := tempSortOrder st;
  tempFilterCategory := tempFilterCategory st;
  tempSearchTerm := tempSearchTerm st;
  tempDateRange := v;
  sortOrder := sortOrder st;
  filterCategory := filterCategory st;
  searchTerm := searchTerm st;
  dateRange := dateRange st
|}.

(** [expenses.map(e => e.Category).filter(Boolean)]. *)
Definition namedCategories (expenses : list Expense) : list string :=
  flat_map (fun e => match Category e with
                     | Some c => if JS.truthyStr c then [c] else []
                     | None => []
                     end) expenses.

Definition applyFilters (st : State) : State := {|
  tempSortOrder := tempSortOrder st;
  tempFilterCategory := tempFilterCategory st;
  tempSearchTerm := tempSearchTerm st;
  tempDateRange := tempDateRange st;
  sortOrder := tempSortOrder st;
  filterCategory := tempFilterCategory st;
  searchTerm := tempSearchTerm st;
  dateRange := tempDateRange st
|}.

Section Component.
(** The platform's [new Date(v)] on a row's [Date] field, date-fns'
    [subMonths], and [String.prototype.toLowerCase] and [trim]. *)
Variable newDate : option string -> JS.Date.
Variable subMonths : JS.Date -> Z -> JS.Date.
Variable toLowerCase : string -> string.
Variable trim : string -> string.
(** The sign of the comparison [sort()] without a comparator makes
    between two strings (by UTF-16 code units). *)
Variable compareStrings : string -> string -> comparison.

(** The [categories] memo, the options of the category select:
    [['All', ...Array.from(cats).sort()]]. *)
Definition categories (expenses : list Expense) : list string :=
  "All" :: JS.sort compareStrings (JS.newSet (namedCategories expenses)).

(** [now] is the time value [new Date()] would give. *)
Definition mostRecentDate (expenses : list Expense) (now : Z) : JS.Date :=
  match expenses with
  | [] => Some now
  | _ => JS.dateOfMax (map (fun e => newDate (Date e)) expenses)
  end.

Definition monthsToSubtract (dateRange : string) : Z :=
  let months := 3 in
  let months := if (dateRange =? "6months")%string then 6 else months in
  let months := if (dateRange =? "1year")%string then 12 else months in
  months.

(** The search filter's callback, [term] already lower-cased. *)
Definition searchMatch (term : string) (e : Expense) : bool :=
  JS.andThen (Category e) (fun s => JS.includes (toLowerCase s) term)
  || JS.andThen (Tags e) (fun s => JS.includes (toLowerCase s) term)
  || JS.andThen (Description e) (fun s => JS.includes (toLowerCase s) term).

(** [e.Category === filterCategory]. *)
Definition categoryIs (filterCategory : string) (e : Expense) : bool :=
  match Category e with
  | None => false
  | Some c => (c =? filterCategory)%string
  end.

(** The body of the [filteredExpenses] memo up to the sort. *)
Definition filtered (isIncome : bool) (st : State) (now : Z)
           (expenses : list Expense) : list Expense :=
  let filtered := expenses in
  let filtered :=
    if negb isIncome
    then filter (fun e => JS.gtZero (Expense_amount e)) filtered
    else filter (fun e => JS.gtZero (Income_amount e)) filtered in
  let filtered :=
    if negb (dateRange st =? "all")%string then
      let cutoffDate :=
        subMonths (mostRecentDate expenses now)
                  (monthsToSubtract (dateRange st)) in
      filter (fun e => JS.dateGe (newDate (Date e)) cutoffDate) filtered
    else filtered in
  let filtered :=
    if JS.truthyStr (filterCategory st) && negb (filterCategory st =? "All")%string
    then filter (categoryIs (filterCategory st)) filtered
    else filtered in
  let filtered :=
    if JS.truthyStr (searchTerm st) then
      let term := toLowerCase (searchTerm st) in
      filter (searchMatch term) filtered
    else filtered in
  filtered.

(** The comparator handed to [filtered.sort]. *)
Definition compareFn (sortOrder : string) (a b : Expense) : comparison :=
  if (sortOrder =? "date-desc")%string then
    JS.signOfInt (JS.dateMinus (newDate (Date b)) (newDate (Date a)))
  else if (sortOrder =? "date-asc")%string then
    JS.signOfInt (JS.dateMinus (newDate (Date a)) (newDate (Date b)))
  else if (sortOrder =? "amount-desc")%string then
    let amountA := JS.orZero (In_main_currency a) in
    let amountB := JS.orZero (In_main_currency b) in
    JS.signOfFloat (amountB - amountA)%float
  else if (sortOrder =? "amount-asc")%string then
    let amountA := JS.orZero (In_main_currency a) in
    let amountB := JS.orZero (In_main_currency b) in
    JS.signOfFloat (amountA - amountB)%float
  else Eq.

(** The [filteredExpenses] memo when the comparator is consistent on
    the rows; in any case a rearrangement of what the memo holds. *)
Definition filteredExpenses (isIncome : bool) (st : State) (now : Z)
           (expenses : list Expense) : list Expense :=
  JS.sort (compareFn (sortOrder st)) (filtered isIncome st now expenses).

(** [rows] is a list the [filteredExpenses] memo may hold: one that
    [filtered.sort(compareFn)] may leave behind. *)
Definition lists (isIncome : bool) (st : State) (now : Z)
           (expenses rows : list Expense) : Prop :=
  sortMayReturn (compareFn (sortOrder st))
                (filtered isIncome st now expenses) rows.

(** What the component renders: the two early returns, then the table
    with its "Showing n of m entries" line.  The rows are given as
    [filteredExpenses] has them. *)
Inductive View : Type :=
| Loading
| NoData
| Table (rows : list Expense) (shown total : nat).

Definition render (expenses : option (list Expense)) (loading isIncome : bool)
           (st : State) (now : Z) : View :=
  if loading then Loading
  else match expenses with
       | None | Some [] => NoData
       | Some es =>
           let rows := filteredExpenses isIncome st now es in
           Table rows (List.length rows) (List.length es)
       end.

(** The four filters of [filtered] as predicates on one row, and their
    conjunction. *)
Definition sideOk (isIncome : bool) (e : Expense) : bool :=
  if negb isIncome then JS.gtZero (Expense_amount e)
  else JS.gtZero (Income_amount e).

Definition dateOk (st : State) (now : Z) (expenses : list Expense)
           (e : Expense) : bool :=
  if negb (dateRange st =? "all")%string then
    JS.dateGe (newDate (Date e))
              (subMonths (mostRecentDate expenses now)
                         (monthsToSubtract (dateRange st)))
  else true.

Definition categoryOk (st : State) (e : Expense) : bool :=
  if JS.truthyStr (filterCategory st) && negb (filterCategory st =? "All")%string
  then categoryIs (filterCategory st) e
  else true.

Definition searchOk (st : State) (e : Expense) : bool :=
  if JS.truthyStr (searchTerm st)
  then searchMatch (toLowerCase (searchTerm st)) e
  else true.

Definition passesFilters (isIncome : bool) (st : State) (now : Z)
           (expenses : list Expense) (e : Expense) : bool :=
  sideOk isIncome e && dateOk st now expenses e
  && categoryOk st e && searchOk st e.

(** The row's [Date] field converts to a valid date. *)
Definition hasValidDate (e : Expense) : Prop :=
  exists t, newDate (Date e) = Some t.

(** The rows can be compared under [sortOrder]: if it is one of the
    date orders, their dates convert. *)
Definition comparable (sortOrder : string) (expenses : list Expense) : Prop :=
  (sortOrder = "date-desc" \/ sortOrder = "date-asc") ->
  Forall hasValidDate expenses.

(** The tags shown in a row's cell: [Tags.split(',')], each trimmed. *)
Definition tagList (e : Expense) : list string :=
  match Tags e with
  | None => []
  | Some s => if JS.truthyStr s then map trim (JS.split "," s) else []
  end.

End Component.

End ExpenseList.

(** ** A reference instance of the platform: ASCII text

    The component is parametric in [toLowerCase] and [trim].  This
    instance folds the letters A to Z and strips the ASCII white space; it
    agrees with the platform's functions on strings of ASCII characters,
    and it is what the examples below are evaluated with. *)

Module ASCII.

(** [toLowerCase] of an ASCII string. *)
Definition lowerChar (c : ascii) : ascii :=
  let n := N_of_ascii c in
  if ((65 <=? n) && (n <=? 90))%N then ascii_of_N (n + 32) else c.

Fixpoint toLowerCase (s : string) : string :=
  match s with
  | EmptyString => EmptyString
  | String c s' => String (lowerChar c) (toLowerCase s')
  end.

(** The ASCII white space [trim] strips: space, tab, LF, VT, FF, CR. *)
Definition isSpace (c : ascii) : bool :=
  let n := N_of_ascii c in ((n =? 32) || ((9 <=? n) && (n <=? 13)))%N.

Fixpoint trimStart (s : string) : string :=
  match s with
  | EmptyString => EmptyString
  | String c s' => if isSpace c then trimStart s' else s
  end.

Fixpoint trimEnd (s : string) : string :=
  match s with
  | EmptyString => EmptyString
  | String c s' =>
      match trimEnd s' with
      | EmptyString => if isSpace c then EmptyString else String c EmptyString
      | r => String c r
      end
  end.

Definition trim (s : string) : string := trimEnd (trimStart s).

End ASCII.

(** ** A reference instance of the platform: UTC dates

    The component is parametric in [new Date] and [subMonths] as well.
    This instance reads date-only ISO strings ([YYYY-MM-DD], midnight UTC)
    and follows date-fns' [addMonths] with the local zone set to UTC; it is
    what the examples below are evaluated with. *)

Module UTC.

Definition msPerDay : Z := 86400000.

(** Days since 1970-01-01 of a proleptic Gregorian date. *)
Definition daysFromCivil (y m d : Z) : Z :=
  let y' := if m <=? 2 then y - 1 else y in
  let era := y' / 400 in
  let yoe := y' - era * 400 in
  let mp := if 2 <? m then m - 3 else m + 9 in
  let doy := (153 * mp + 2) / 5 + d - 1 in
  let doe := yoe * 365 + yoe / 4 - yoe / 100 + doy in
  era * 146097 + doe - 719468.

Definition civilFromDays (z : Z) : Z * Z * Z :=
  let z := z + 719468 in
  let era := z / 146097 in
  let doe := z - era * 146097 in
  let yoe := (doe - doe / 1460 + doe / 36524 - doe / 146096) / 365 in
  let y := yoe + era * 400 in
  let doy := doe - (365 * yoe + yoe / 4 - yoe / 100) in
  let mp := (5 * doy + 2) / 153 in
  let d := doy - (153 * mp + 2) / 5 + 1 in
  let m := if mp <? 10 then mp + 3 else mp - 9 in
  ((if m <=? 2 then y + 1 else y), m, d).

Definition isLeap (y : Z) : bool :=
  ((y mod 4 =? 0) && negb (y mod 100 =? 0)) || (y mod 400 =? 0).

Definition daysInMonth (y m : Z) : Z :=
  if m =? 2 then (if isLeap y then 29 else 28)
  else if (m =? 4) || (m =? 6) || (m =? 9) || (m =? 11) then 30
  else 31.

Definition digit (c : ascii) : option Z :=
  let n := Z.of_N (N_of_ascii c) in
  if (48 <=? n) && (n <=? 57) then Some (n - 48) else None.

Fixpoint digits (acc : Z) (s : string) : option Z :=
  match s with
  | EmptyString => Some acc
  | String c s' =>
      match digit c with
      | Some n => digits (10 * acc + n) s'
      | None => None
      end
  end.

(** [new Date(v)]: [null] converts to the epoch; a date-only string is
    midnight UTC of that day. *)
Definition newDate (v : option string) : JS.Date :=
  match v with
  | None => Some 0
  | Some s =>
      if ((String.length s =? 10)%nat
          && (substring 4 1 s =? "-")%string
          && (substring 7 1 s =? "-")%string)%bool
      then
        match digits 0 (substring 0 4 s), digits 0 (substring 5 2 s),
              digits 0 (substring 8 2 s) with
        | Some y, Some m, Some d =>
            if (1 <=? m) && (m <=? 12) && (1 <=? d) && (d <=? daysInMonth y m)
            then Some (daysFromCivil y m d * msPerDay)
            else None
        | _, _, _ => None
        end
      else None
  end.

(** date-fns [addMonths]: the day of the month is kept unless the target
    month is shorter, then its last day is taken; the time of day is
    kept; an Invalid Date stays invalid. *)
Definition addMonths (date : JS.Date) (amount : Z) : JS.Date :=
  match date with
  | None => None
  | Some t =>
      if amount =? 0 then Some t
      else
        let day := t / msPerDay in
        let ms := t mod msPerDay in
        let '(y, m, dayOfMonth) := civilFromDays day in
        let idx := (m - 1) + amount in
        let y' := y + idx / 12 in
        let m' := idx mod 12 + 1 in
        let dim := daysInMonth y' m' in
        let d' := if dim <=? dayOfMonth then dim else dayOfMonth in
        Some (daysFromCivil y' m' d' * msPerDay + ms)
  end.

Definition subMonths (date : JS.Date) (amount : Z) : JS.Date :=
  addMonths date (- amount).

Definition monthNames : list string :=
  [ "Jan"; "Feb"; "Mar"; "Apr"; "May"; "Jun";
    "Jul"; "Aug"; "Sep"; "Oct"; "Nov"; "Dec" ].

(** date-fns [format(parseISO(s), 'MMM yyyy')] on a date-only string, in
    English; [None] where [parseISO] gives an Invalid Date and [format]
    throws. *)
Definition formatMonth (s : string) : option string :=
  match newDate (Some s), digits 0 (substring 5 2 s) with
  | Some _, Some m =>
      match nth_error monthNames (Z.to_nat (m - 1)) with
      | Some name => Some (name ++ " " ++ substring 0 4 s)
      | None => None
      end
  | _, _ => None
  end.

End UTC.

(** ** Dashboard (frontend/src/components/Dashboard.jsx): the hero cards *)

Module Dashboard.

(** [Number.prototype.toFixed(f)]: the digits of the integer [n] nearest
    to [x * 10^f] (the larger one on a tie) with a point before the last
    [f] of them.  Numbers that are not finite print as [ToString] does.  From
    [10^21] on [toFixed] switches to exponent notation, which is left
    out ([None]). *)
Definition digitsOf (n : Z) : string :=
  NilZero.string_of_uint (N.to_uint (Z.to_N n)).

Fixpoint zeros (k : nat) : string :=
  match k with
  | O => EmptyString
  | S k' => String "0" (zeros k')
  end.

Definition fixedDigits (n : Z) (f : nat) : string :=
  let m := digitsOf n in
  match f with
  | O => m
  | _ =>
      let k := String.length m in
      let m := if (k <=? f)%nat then zeros (f + 1 - k) ++ m else m in
      let k := String.length m in
      substring 0 (k - f) m ++ "." ++ substring (k - f) f m
  end.

Definition toFixed (x : float) (f : nat) : option string :=
  match Prim2SF x with
  | S754_nan => Some "NaN"
  | S754_infinity false => Some "Infinity"
  | S754_infinity true => Some "-Infinity"
  | S754_zero _ => Some (fixedDigits 0 f)
  | S754_finite s m e =>
      let p := 10 ^ Z.of_nat f in
      let big :=
        if 0 <=? e then 10 ^ 21 <=? Zpos m * 2 ^ e
        else 10 ^ 21 * 2 ^ (- e) <=? Zpos m in
      let n :=
        if 0 <=? e then Zpos m * 2 ^ e * p
        else (2 * Zpos m * p + 2 ^ (- e)) / 2 ^ (- e + 1) in
      if big then None
      else Some ((if s then "-" else "") ++ fixedDigits n f)
  end.

Record Bucket : Type := {
  expenses : option float;
  income : option float;
  bucket_net : option float
}.

(** [summary.date_range]: the first and the last date of the data, each
    [null] when there is none.  ([end] is written [end_].) *)
Record DateRange : Type := {
  start : option string;
  end_ : option string
}.

(** [response.data] of [/api/summary]; an object field that is missing
    or [null] is [None]. *)
Record Summary : Type := {
  total_expenses : float;
  total_income : float;
  net : float;
  currency : string;
  date_range : option DateRange;
  income_count : option float;
  category_breakdown : option (list (string * float));
  top_tags : option (list (string * float));
  monthly_summary : option (list (string * Bucket));
  yearly_summary : option (list (string * Bucket))
}.

Definition isSome {A : Type} (o : option A) : bool :=
  match o with Some _ => true | None => false end.

(** The guard of the "Loading your financial insights..." return. *)
Definition notReady (summary : option Summary) : bool :=
  match summary with
  | None => true
  | Some s =>
      negb (isSome (category_breakdown s))
      || negb (isSome (top_tags s))
      || negb (isSome (monthly_summary s))
  end.

(** The number under the balance card's badge:
    [(Math.abs(summary.net) / summary.total_expenses) * 100]. *)
Definition netPercent (s : Summary) : float :=
  (abs (net s) / total_expenses s * 100)%float.

(** The badge's text: sign, a space, the percentage to one decimal. *)
Definition balanceBadge (s : Summary) : option string :=
  match toFixed (netPercent s) 1 with
  | Some digits =>
      Some ((if (0 <=? net s)%float then "+" else "-") ++ " " ++ digits ++ "%")
  | None => None
  end.

(** The three hero cards.  [rangeStart] and [rangeEnd] are the two
    texts around the dash under the total of expenses, [None] where
    nothing is drawn; [incomeEntries] is [summary.income_count || 0]. *)
Record HeroStats : Type := {
  expensesAmount : option string;
  rangeStart : option string;
  rangeEnd : option string;
  incomeAmount : option string;
  incomeEntries : float;
  balanceAmount : option string;
  balancePositive : bool;
  badge : option string
}.

(** An exception that leaves the component while it renders. *)
Inductive Error : Type :=
| TypeError
| RangeError.

Inductive View : Type :=
| LoadingInsights
| Hero (cards : HeroStats)
| Throws (error : Error).

Section Render.
(** date-fns: [format(parseISO(s), 'MMM yyyy')], [None] when [format]
    throws its [RangeError] ("Invalid time value"). *)
Variable formatMonth : string -> option string.

(** [v && format(parseISO(v), 'MMM yyyy')] on a field of [date_range]:
    [null] draws nothing, the empty string draws itself, [None] is the
    [RangeError] of [format]. *)
Definition monthText (v : option string) : option (option string) :=
  match v with
  | None => Some None
  | Some s =>
      if JS.truthyStr s
      then match formatMonth s with
           | Some text => Some (Some text)
           | None => None
           end
      else Some (Some s)
  end.

(** The component up to its hero cards.  [summary.date_range.start] is
    read with no guard on [date_range]: a summary without it makes the
    render throw a [TypeError]. *)
Definition render (summary : option Summary) : View :=
  if notReady summary then LoadingInsights
  else match summary with
       | None => LoadingInsights
       | Some s =>
           match date_range s with
           | None => Throws TypeError
           | Some range =>
               match monthText (start range), monthText (end_ range) with
               | Some rangeStart, Some rangeEnd =>
                   Hero {| expensesAmount := toFixed (total_expenses s) 2;
                           rangeStart := rangeStart;
                           rangeEnd := rangeEnd;
                           incomeAmount := toFixed (total_income s) 2;
                           incomeEntries := JS.orZero (income_count s);
                           balanceAmount := toFixed (abs (net s)) 2;
                           balancePositive := (0 <=? net s)%float;
                           badge := balanceBadge s |}
               | _, _ => Throws RangeError
               end
           end
       end.
End Render.

(** *** The colours of the chart cells *)

Definition COLORS : list string :=
  [ "#667eea"; "#764ba2"; "#f093fb"; "#4facfe"; "#43e97b";
    "#fa709a"; "#fee140"; "#30cfd0"; "#a8edea"; "#fed6e3" ].

(** [COLORS[index % COLORS.length]], the fill of the cell at [index];
    [None] would be [undefined]. *)
Definition cellColor (index : nat) : option string :=
  nth_error COLORS (index mod List.length COLORS).

End Dashboard.

(** ** AIInsights (frontend/src/components/AIInsights.jsx and its chat
       revision): the [getInsights] handler

    The handler is an async function over the component's state cells, the
    [onLoginClick] prop and [axios.post].  It is written in a state monad
    over [World], the cells together with a log of what left the component;
    the backend's answer to a request is given by a function. *)

Module Insights.

(** [response.data] of [/api/insights]. *)
Record InsightsData : Type := {
  data_query : option string;
  data_insights : string
}.

(** How the promise of [axios.post] settles: [err.response?.status] and
    [err.response?.data?.detail] on rejection. *)
Inductive Reply : Type :=
| Resolved (data : InsightsData)
| Rejected (status : option Z) (detail : option string).

(** One call of [axios.post]: the URL, the body's [query] ([None] is
    [undefined]: the key is dropped) and the [withCredentials] option. *)
Record Request : Type := {
  url : string;
  body_query : option string;
  withCredentials : bool
}.

Record Message : Type := {
  role : string;
  content : string
}.

Record World : Type := {
  insights : option InsightsData;
  chatHistory : list Message;
  loading : bool;
  error : option string;
  customQuery : string;
  posted : list Request;
  loginClicks : nat
}.

Definition M (A : Type) : Type := World -> A * World.

Definition ret {A : Type} (a : A) : M A := fun w => (a, w).

Definition bind {A B : Type} (m : M A) (k : A -> M B) : M B :=
  fun w => let '(a, w') := m w in k a w'.

Notation "x <- m ;; k" := (bind m (fun x => k))
  (at level 61, m at next level, right associativity).
Notation "m ;; k" := (bind m (fun _ => k))
  (at level 61, right associativity).

Definition exec {A : Type} (m : M A) (w : World) : World := snd (m w).

Definition setInsights (v : option InsightsData) : M unit := fun w =>
  (tt, {| insights := v; chatHistory := chatHistory w; loading := loading w;
          error := error w; customQuery := customQuery w;
          posted := posted w; loginClicks := loginClicks w |}).

Definition setChatHistory (f : list Message -> list Message) : M unit := fun w =>
  (tt, {| insights := insights w; chatHistory := f (chatHistory w);
          loading := loading w; error := error w; customQuery := customQuery w;
          posted := posted w; loginClicks := loginClicks w |}).

Definition setLoading (v : bool) : M unit := fun w =>
  (tt, {| insights := insights w; chatHistory := chatHistory w; loading := v;
          error := error w; customQuery := customQuery w;
          posted := posted w; loginClicks := loginClicks w |}).

Definition setError (v : option string) : M unit := fun w =>
  (tt, {| insights := insights w; chatHistory := chatHistory w;
          loading := loading w; error := v; customQuery := customQuery w;
          posted := posted w; loginClicks := loginClicks w |}).

Definition setCustomQuery (v : string) : M unit := fun w =>
  (tt, {| insights := insights w; chatHistory := chatHistory w;
          loading := loading w; error := error w; customQuery := v;
          posted := posted w; loginClicks := loginClicks w |}).

Definition onLoginClick : M unit := fun w =>
  (tt, {| insights := insights w; chatHistory := chatHistory w;
          loading := loading w; error := error w; customQuery := customQuery w;
          posted := posted w; loginClicks := S (loginClicks w) |}).

(** [v || d] on a string that may be [null]. *)
Definition orElse (v : option string) (d : string) : string :=
  match v with
  | Some s => if JS.truthyStr s then s else d
  | None => d
  end.

(** [query || undefined]. *)
Definition orUndefined (v : option string) : option string :=
  match v with
  | Some s => if JS.truthyStr s then Some s else None
  | None => None
  end.

(** [prev.slice(0, -1)]. *)
Definition dropLast {A : Type} (l : list A) : list A := removelast l.

Section Handler.
(** [import.meta.env.VITE_API_URL], the component's props, the backend
    behind [axios.post], and the platform's [trim]. *)
Variable VITE_API_URL : option string.
Variable isAuthenticated : JS.Value.
Variable backend : Request -> Reply.
Variable trim : string -> string.

Definition API_BASE : string := orElse VITE_API_URL "http://localhost:8000".

Definition axios_post (r : Request) : M Reply := fun w =>
  (backend r,
   {| insights := insights w; chatHistory := chatHistory w;
      loading := loading w; error := error w; customQuery := customQuery w;
      posted := (posted w ++ [r])%list; loginClicks := loginClicks w |}).

(** The request [getInsights] sends for [query]; the chat revision sets
    [withCredentials]. *)
Definition insightsRequest (query : option string) (credentials : bool) : Request :=
  {| url := API_BASE ++ "/api/insights";
     body_query := orUndefined query;
     withCredentials := credentials |}.

(** The [catch] block both revisions share. *)
Definition onRejected (status : option Z) (detail : option string) : M unit :=
  match status with
  | Some 403 =>
      setError (Some "Please log in to access AI insights") ;;
      onLoginClick
  | _ =>
      setError (Some (orElse detail
        "Failed to get AI insights. Make sure ANTHROPIC_API_KEY is set."))
  end.

(** AIInsights.jsx. *)
Definition getInsights (query : option string) : M unit :=
  if negb (JS.truthy isAuthenticated) then
    onLoginClick
  else
    setLoading true ;;
    setError None ;;
    response <- axios_post {| url := API_BASE ++ "/api/insights";
                              body_query := orUndefined query;
                              withCredentials := false |} ;;
    match response with
    | Resolved data => setInsights (Some data)
    | Rejected status detail => onRejected status detail
    end ;;
    setLoading false.

(** The chat revision of the component. *)
Definition getInsightsChat (query : option string) : M unit :=
  if negb (JS.truthy isAuthenticated) then
    onLoginClick
  else
    setLoading true ;;
    setError None ;;
    let userMessage :=
      {| role := "user"; content := orElse query "Analyze my spending" |} in
    setChatHistory (fun prev => (prev ++ [userMessage])%list) ;;
    response <- axios_post {| url := API_BASE ++ "/api/insights";
                              body_query := orUndefined query;
                              withCredentials := true |} ;;
    match response with
    | Resolved data =>
        let aiMessage :=
          {| role := "assistant"; content := data_insights data |} in
        setChatHistory (fun prev => (prev ++ [aiMessage])%list) ;;
        setCustomQuery ""
    | Rejected status detail =>
        setChatHistory dropLast ;;
        onRejected status detail
    end ;;
    setLoading false.

(** [handleCustomQuery], after [e.preventDefault()]. *)
Definition handleCustomQuery (handler : option string -> M unit) : M unit :=
  fun w =>
    if JS.truthyStr (trim (customQuery w))
    then handler (Some (customQuery w)) w
    else (tt, w).

End Handler.

Definition quickQuestions : list string :=
  [ "What are my top spending categories and how can I reduce them?";
    "Analyze my restaurant spending habits";
    "How can I optimize my monthly expenses?";
    "What percentage of my income should I save?";
    "Find unusual or irregular spending patterns" ].

Definition initialWorld : World :=
  {| insights := None; chatHistory := []; loading := false; error := None;
     customQuery := ""; posted := []; loginClicks := 0 |}.

End Insights.

(** ** App (frontend/src/App.jsx): session and data loading

    The handlers are async functions over the component's state cells and
    the [api] axios instance; an awaited request that fails throws.  They
    are written in a state monad with exceptions over [World], the cells
    with the log of requests sent.  What the server answers to a request
    is given by [Server], by endpoint and by how many requests were sent
    before.

    The fetchers that run side by side ([Promise.all] in [handleLogout],
    the effect on mount) are sequenced in call order: they start their
    requests in that order and write disjoint cells. *)

Module App.

(** [response.data] of [/api/auth/status]. *)
Record AuthStatus : Type := {
  authenticated : JS.Value;
  mode : option string
}.

(** [{ authenticated: false, mode: 'guest' }]. *)
Definition guestStatus : AuthStatus :=
  {| authenticated := JS.Bool false; mode := Some "guest" |}.

(** What a [catch] reads off an error: [error.response?.data?.detail]
    and [error.message]. *)
Record Error : Type := {
  detail : option string;
  message : option string
}.

(** [new Error(text)]. *)
Definition newError (text : string) : Error :=
  {| detail := None; message := Some text |}.

Inductive Reply (A : Type) : Type :=
| Resolved (data : A)
| Rejected (error : Error).
Arguments Resolved {A} data.
Arguments Rejected {A} error.

Inductive Request : Type :=
| Get (path : string)
| PostLogin (token : string)
| PostLogout.

(** The backend behind [api]; the number is the count of requests sent
    before.  [expensesOf] and [incomeOf] answer with [response.data.expenses]
    and [response.data.income] ([None] when the field is missing), and
    [loginOf] with [loginResponse.data.authenticated]. *)
Record Server : Type := {
  statusOf : nat -> Reply AuthStatus;
  summaryOf : nat -> Reply Dashboard.Summary;
  expensesOf : nat -> string -> Reply (option (list ExpenseList.Expense));
  incomeOf : nat -> Reply (option (list ExpenseList.Expense));
  loginOf : nat -> string -> Reply JS.Value;
  logoutOf : nat -> Reply unit
}.

Record World : Type := {
  summary : option Dashboard.Summary;
  expenses : option (list ExpenseList.Expense);
  income : option (list ExpenseList.Expense);
  loading : bool;
  activeTab : string;
  authStatus : option AuthStatus;
  showLogin : bool;
  sent : list Request
}.

Definition initialWorld : World :=
  {| summary := None; expenses := Some []; income := Some [];
     loading := true; activeTab := "dashboard"; authStatus := None;
     showLogin := false; sent := [] |}.

Inductive Outcome (A : Type) : Type :=
| Returned (result : A)
| Thrown (error : Error).
Arguments Returned {A} result.
Arguments Thrown {A} error.

Definition M (A : Type) : Type := World -> Outcome A * World.

Definition ret {A : Type} (a : A) : M A := fun w => (Returned a, w).

Definition throw {A : Type} (e : Error) : M A := fun w => (Thrown e, w).

Definition bind {A B : Type} (m : M A) (k : A -> M B) : M B :=
  fun w =>
    match m w with
    | (Returned a, w') => k a w'
    | (Thrown e, w') => (Thrown e, w')
    end.

(** [try { body } catch (error) { handler }]. *)
Definition tryCatch {A : Type} (body : M A) (handler : Error -> M A) : M A :=
  fun w =>
    match body w with
    | (Returned a, w') => (Returned a, w')
    | (Thrown e, w') => handler e w'
    end.

(** [try { body } finally { cleanup }], for a cleanup that does not
    throw. *)
Definition tryFinally {A : Type} (body : M A) (cleanup : World -> World) : M A :=
  fun w => let '(outcome, w') := body w in (outcome, cleanup w').

Notation "x <- m ;; k" := (bind m (fun x => k))
  (at level 61, m at next level, right associativity).
Notation "m ;; k" := (bind m (fun _ => k))
  (at level 61, right associativity).

Definition exec {A : Type} (m : M A) (w : World) : World := snd (m w).
Definition outcome {A : Type} (m : M A) (w : World) : Outcome A := fst (m w).

Definition withSummary (v : option Dashboard.Summary) (w : World) : World :=
  {| summary := v; expenses := expenses w; income := income w;
     loading := loading w; activeTab := activeTab w;
     authStatus := authStatus w; showLogin := showLogin w; sent := sent w |}.

Definition withExpenses (v : option (list ExpenseList.Expense)) (w : World) : World :=
  {| summary := summary w; expenses := v; income := income w;
     loading := loading w; activeTab := activeTab w;
     authStatus := authStatus w; showLogin := showLogin w; sent := sent w |}.

Definition withIncome (v : option (list ExpenseList.Expense)) (w : World) : World :=
  {| summary := summary w; expenses := expenses w; income := v;
     loading := loading w; activeTab := activeTab w;
     authStatus := authStatus w; showLogin := showLogin w; sent := sent w |}.

Definition withLoading (v : bool) (w : World) : World :=
  {| summary := summary w; expenses := expenses w; income := income w;
     loading := v; activeTab := activeTab w;
     authStatus := authStatus w; showLogin := showLogin w; sent := sent w |}.

Definition withAuthStatus (v : option AuthStatus) (w : World) : World :=
  {| summary := summary w; expenses := expenses w; income := income w;
     loading := loading w; activeTab := activeTab w;
     authStatus := v; showLogin := showLogin w; sent := sent w |}.

Definition withShowLogin (v : bool) (w : World) : World :=
  {| summary := summary w; expenses := expenses w; income := income w;
     loading := loading w; activeTab := activeTab w;
     authStatus := authStatus w; showLogin := v; sent := sent w |}.

Definition logged (r : Request) (w : World) : World :=
  {| summary := summary w; expenses := expenses w; income := income w;
     loading := loading w; activeTab := activeTab w;
     authStatus := authStatus w; showLogin := showLogin w;
     sent := (sent w ++ [r])%list |}.

(** A state setter as a step of a handler. *)
Definition set (update : World -> World) : M unit := fun w => (Returned tt, update w).

(** [await api.get(...)] or [await api.post(...)]: the request goes out,
    a rejection is thrown. *)
Definition await {A : Type} (r : Request) (reply : nat -> Reply A) : M A :=
  fun w =>
    match reply (List.length (sent w)) with
    | Resolved data => (Returned data, logged r w)
    | Rejected e => (Thrown e, logged r w)
    end.

(** [a || b || c] on the texts of an error. *)
Definition firstText (v : option string) (otherwise : string) : string :=
  match v with
  | Some s => if JS.truthyStr s then s else otherwise
  | None => otherwise
  end.

Section Handlers.
Variable server : Server.
(** [new URLSearchParams(filters)] as text. *)
Variable searchParams : list (string * string) -> string.

Definition checkAuthStatus : M AuthStatus :=
  tryCatch
    (data <- await (Get "/api/auth/status") (statusOf server) ;;
     set (withAuthStatus (Some data)) ;;
     ret data)
    (fun _ =>
       set (withAuthStatus (Some guestStatus)) ;;
       ret guestStatus).

Definition fetchSummary : M (option Dashboard.Summary) :=
  tryCatch
    (data <- await (Get "/api/summary") (summaryOf server) ;;
     set (withSummary (Some data)) ;;
     ret (Some data))
    (fun _ => ret None).

Definition fetchExpenses (filters : list (string * string))
  : M (option (option (list ExpenseList.Expense))) :=
  tryFinally
    (tryCatch
       (set (withLoading true) ;;
        let params := searchParams filters in
        let path := "/api/expenses?" ++ params in
        data <- await (Get path) (fun n => expensesOf server n path) ;;
        set (withExpenses data) ;;
        ret (Some data))
       (fun _ =>
          set (withExpenses (Some [])) ;;
          ret None))
    (withLoading false).

Definition fetchIncome : M (option (option (list ExpenseList.Expense))) :=
  tryCatch
    (data <- await (Get "/api/income") (incomeOf server) ;;
     set (withIncome data) ;;
     ret (Some data))
    (fun _ =>
       set (withIncome (Some [])) ;;
       ret None).

(** The effect that runs on mount. *)
Definition mount : M unit :=
  checkAuthStatus ;; fetchSummary ;; fetchExpenses [] ;; fetchIncome ;; ret tt.

Definition handleLogin (token : string) : M unit :=
  tryCatch
    (isAuthenticated <- await (PostLogin token) (fun n => loginOf server n token) ;;
     (if negb (JS.truthy isAuthenticated)
      then throw (newError "Invalid token. Please check your token and try again.")
      else ret tt) ;;
     checkAuthStatus ;;
     fetchSummary ;;
     fetchExpenses [] ;;
     fetchIncome ;;
     set (withShowLogin false))
    (fun error =>
       let errorMessage :=
         firstText (detail error) (firstText (message error) "Login failed") in
       throw (newError errorMessage)).

Definition handleLogout : M unit :=
  tryCatch
    (await PostLogout (logoutOf server) ;; ret tt)
    (fun _ => ret tt) ;;
  set (withAuthStatus (Some guestStatus)) ;;
  tryCatch
    (fetchSummary ;; fetchExpenses [] ;; fetchIncome ;; ret tt)
    (fun _ => ret tt).

End Handlers.

(** [isAuthenticated={authStatus?.authenticated}], the prop handed to
    AIInsights. *)
Definition isAuthenticatedProp (w : World) : JS.Value :=
  match authStatus w with
  | Some status => authenticated status
  | None => JS.Undefined
  end.

End App.

(** ** Login (frontend/src/components/Login.jsx, in App.jsx) *)

Module Login.

Record State : Type := {
  token : string;
  error : string;
  loading : bool
}.

Definition initialState : State :=
  {| token := ""; error := ""; loading := false |}.

(** The input's [onChange]: the token is stored and the error cleared. *)
Definition changeToken (value : string) (st : State) : State :=
  {| token := value; error := ""; loading := loading st |}.

Section Submit.
(** [onLogin] runs in the parent, over the parent's state [W]; it either
    resolves or rejects with an error of some [message].  [trim] is the
    platform's. *)
Context {W : Type}.
Variable onLogin : string -> W -> option (option string) * W.
Variable trim : string -> string.

(** [handleSubmit], after [e.preventDefault()].  A rejection of [onLogin]
    is [Some message] ([message] being [err.message]). *)
Definition handleSubmit (st : State) (w : W) : State * W :=
  if negb (JS.truthyStr (trim (token st))) then
    ({| token := token st; error := "Please enter your access token";
        loading := loading st |}, w)
  else
    match onLogin (token st) w with
    | (None, w') =>
        ({| token := token st; error := ""; loading := false |}, w')
    | (Some msg, w') =>
        ({| token := token st;
            error := App.firstText msg "Login failed";
            loading := false |}, w')
    end.
End Submit.

(** [handleLogin] as the [onLogin] prop. *)
Definition appLogin (server : App.Server)
           (searchParams : list (string * string) -> string)
           (tok : string) (w : App.World) : option (option string) * App.World :=
  match App.handleLogin server searchParams tok w with
  | (App.Returned _, w') => (None, w')
  | (App.Thrown e, w') => (Some (App.message e), w')
  end.

End Login.

(** ** The backend contract: aggregation and obfuscation

    [backend/] (the aggregator and the obfuscation engine behind
    [/api/summary]) is not among the sources; only the documentation quotes
    it.  The definitions of this module follow the specification, with
    exact rational amounts where the backend computes in doubles: they say
    nothing of rounding. *)

Module Backend.

Local Open Scope Q_scope.

(** Modelled from the spec: the calendar date of a transaction and of
    "today" (the loader and the clock of backend/ are missing). *)
Record CalendarDate : Type := { year : Z; month : Z; day : Z }.

(** Modelled from the spec: the [Transaction] of the data model, whose
    loader and aggregator (backend/) are missing. *)
Record Transaction : Type := {
  date : CalendarDate;
  category : option string;
  tags : list string;
  description : option string;
  expenseAmount : Q;
  incomeAmount : Q;
  convertedAmount : Q
}.

(** Modelled from the spec: the [AggregateSummary] fields the summary
    card and the category chart read (the aggregator of backend/ is
    missing). *)
Record AggregateSummary : Type := {
  totalExpenses : Q;
  totalIncome : Q;
  net : Q;
  categoryBreakdown : list (string * Q);
  topTags : list (string * Q);
  incomeCount : nat
}.

(** Modelled from the spec: the partition of [summarize] into expense
    rows ([expenseAmount > 0]) and income rows ([incomeAmount > 0]); the
    aggregator of backend/ is missing. *)
Definition isExpenseRow (t : Transaction) : bool :=
  negb (Qle_bool (expenseAmount t) 0).

(** Modelled from the spec: see [isExpenseRow]. *)
Definition isIncomeRow (t : Transaction) : bool :=
  negb (Qle_bool (incomeAmount t) 0).

(** Modelled from the spec: the sum of one side, in the reporting
    currency (the aggregator of backend/ is missing). *)
Definition sumConverted (rows : list Transaction) : Q :=
  fold_left (fun acc t => acc + convertedAmount t) rows 0.

(** Modelled from the spec: the grouping step of the aggregator (backend/
    is missing).  Adds [v] under key [k], keeping the order in which keys
    were first seen. *)
Fixpoint addTo (k : string) (v : Q) (m : list (string * Q)) : list (string * Q) :=
  match m with
  | [] => [(k, v)]
  | (k', v') :: m' =>
      if (k =? k')%string then (k', v' + v) :: m'
      else (k', v') :: addTo k v m'
  end.

(** Modelled from the spec: grouping by category, rows without a
    category left out (the aggregator of backend/ is missing). *)
Definition groupByCategory (rows : list Transaction) : list (string * Q) :=
  fold_left (fun m t =>
               match category t with
               | Some c => addTo c (convertedAmount t) m
               | None => m
               end) rows [].

(** Modelled from the spec: each row's tag list exploded, the converted
    amount summed per tag (the aggregator of backend/ is missing). *)
Definition groupByTag (rows : list Transaction) : list (string * Q) :=
  fold_left (fun m t =>
               fold_left (fun m' tag => addTo tag (convertedAmount t) m')
                         (tags t) m) rows [].

(** Modelled from the spec: the order of the breakdowns (the aggregator
    of backend/ is missing): descending by value, ties in first-seen
    order. *)
Fixpoint insertDesc (x : string * Q) (l : list (string * Q)) : list (string * Q) :=
  match l with
  | [] => [x]
  | y :: l' =>
      if negb (Qle_bool (snd y) (snd x)) then y :: insertDesc x l'
      else x :: l
  end.

(** Modelled from the spec: see [insertDesc]. *)
Definition sortDesc (l : list (string * Q)) : list (string * Q) :=
  fold_right insertDesc [] l.

(** Modelled from the spec: no breakdown entry with a zero or negative
    sum (the aggregator of backend/ is missing). *)
Definition positiveEntry (kv : string * Q) : bool :=
  negb (Qle_bool (snd kv) 0).

(** Modelled from the spec: [summarize] of the Aggregator (backend/ is
    missing).  Each side is summed on its own and [net] is one
    subtraction of the two sums. *)
Definition summarize (transactions : list Transaction) : AggregateSummary :=
  let expenseRows := filter isExpenseRow transactions in
  let incomeRows := filter isIncomeRow transactions in
  let totalExpenses := sumConverted expenseRows in
  let totalIncome := sumConverted incomeRows in
  {| totalExpenses := totalExpenses;
     totalIncome := totalIncome;
     net := totalIncome - totalExpenses;
     categoryBreakdown :=
       sortDesc (filter positiveEntry (groupByCategory expenseRows));
     topTags := firstn 10 (sortDesc (groupByTag expenseRows));
     incomeCount := List.length incomeRows |}.

Section Obfuscation.
(** The seed taken from a calendar date, and the output of the
    pseudo-random generator started from a seed; neither is fixed by
    the specification. *)
Variable seedOfDate : CalendarDate -> Z.
Variable generator : Z -> Z.

(** Modelled from the spec: a draw from the seeded generator (the
    obfuscation engine of backend/ is missing), as a fraction in [[0, 1)]:
    53 bits of the generator's output over [2^53]. *)
Definition unitDraw (seed : Z) : Q :=
  inject_Z (generator seed mod 2 ^ 53) / inject_Z (2 ^ 53).

(** Modelled from the spec: [dailyFactor] of the Obfuscation Engine
    (backend/ is missing): the date seeds the generator, one draw is
    mapped uniformly onto the range from 0.2 to 0.4, here without the
    rounding of the doubles the backend computes with. *)
Definition dailyFactor (today : CalendarDate) : Q :=
  (2 # 10) + ((4 # 10) - (2 # 10)) * unitDraw (seedOfDate today).

(** Modelled from the spec: [obfuscateAmount] (backend/ is missing). *)
Definition obfuscateAmount (factor amount : Q) : Q := amount * factor.

(** Modelled from the spec: [obfuscateAmount] on every value of a
    breakdown, names unchanged (backend/ is missing). *)
Definition obfuscateEntries (factor : Q) (m : list (string * Q)) : list (string * Q) :=
  map (fun kv => (fst kv, obfuscateAmount factor (snd kv))) m.

(** Modelled from the spec: the engine's transform of a summary
    (backend/ is missing): one factor for every amount of the
    response, names and counts unchanged. *)
Definition transform (factor : Q) (s : AggregateSummary) : AggregateSummary :=
  {| totalExpenses := obfuscateAmount factor (totalExpenses s);
     totalIncome := obfuscateAmount factor (totalIncome s);
     net := obfuscateAmount factor (net s);
     categoryBreakdown := obfuscateEntries factor (categoryBreakdown s);
     topTags := obfuscateEntries factor (topTags s);
     incomeCount := incomeCount s |}.
End Obfuscation.

End Backend.

(** ** Sample data for the examples *)

Module Sample.
Import ExpenseList.

Definition expense (date : string) (category tags description : option string)
           (amount : float) : Expense :=
  {| Date := Some date; Category := category; Tags := tags;
     Description := description;
     Expense_amount := Some amount; Income_amount := Some 0%float;
     In_main_currency := Some amount; Main_currency := Some "EUR" |}.

Definition groceries : Expense :=
  expense "2024-03-15" (Some "Food") (Some "market") (Some "Groceries") 10.
Definition rent : Expense :=
  expense "2024-03-15" (Some "Housing") None (Some "Rent March") 500.
Definition cinema : Expense :=
  expense "2024-03-20" (Some "Fun") (Some "movies, friends") None 20.
Definition skiPass : Expense :=
  expense "2024-05-31" (Some "Sport") (Some "skiing,winter") None 50.
Definition leapDay : Expense :=
  expense "2024-02-29" (Some "Food") None (Some "Bakery") 20.
Definition dayBefore : Expense :=
  expense "2024-02-28" (Some "Food") None (Some "Cafe") 7.

(** A row whose [Date] is the empty string: [new Date('')] is an
    Invalid Date, and the row's date cell shows a dash. *)
Definition undated : Expense :=
  expense "" (Some "Food") None (Some "Kiosk") 3.

(** The rows dated 2024-03-15. *)
Definition onMarch15 (e : Expense) : bool :=
  match UTC.newDate (Date e) with
  | Some t => t =? 1710460800000
  | None => false
  end.

(** The [date_range] of a dataset without a dated row. *)
Definition noDates : Dashboard.DateRange :=
  {| Dashboard.start := None; Dashboard.end_ := None |}.

(** The summary of an empty dataset: all totals zero, no dates, empty
    mappings. *)
Definition emptySummary : Dashboard.Summary :=
  {| Dashboard.total_expenses := 0; Dashboard.total_income := 0;
     Dashboard.net := 0; Dashboard.currency := "EUR";
     Dashboard.date_range := Some noDates;
     Dashboard.income_count := Some 0%float;
     Dashboard.category_breakdown := Some [];
     Dashboard.top_tags := Some [];
     Dashboard.monthly_summary := Some [];
     Dashboard.yearly_summary := Some [] |}.

(** The [date_range] of a dataset whose rows are all of 2024-03-15. *)
Definition oneDay : Dashboard.DateRange :=
  {| Dashboard.start := Some "2024-03-15"; Dashboard.end_ := Some "2024-03-15" |}.

(** Income but no expense yet. *)
Definition incomeOnlySummary : Dashboard.Summary :=
  {| Dashboard.total_expenses := 0; Dashboard.total_income := 1000;
     Dashboard.net := 1000; Dashboard.currency := "EUR";
     Dashboard.date_range := Some oneDay;
     Dashboard.income_count := Some 1%float;
     Dashboard.category_breakdown := Some [];
     Dashboard.top_tags := Some [];
     Dashboard.monthly_summary := Some [];
     Dashboard.yearly_summary := Some [] |}.

(** A summary with its three mappings but without [date_range]. *)
Definition datelessSummary : Dashboard.Summary :=
  {| Dashboard.total_expenses := 100; Dashboard.total_income := 1000;
     Dashboard.net := 900; Dashboard.currency := "EUR";
     Dashboard.date_range := None;
     Dashboard.income_count := Some 1%float;
     Dashboard.category_breakdown := Some [("Food", 100%float)];
     Dashboard.top_tags := Some [];
     Dashboard.monthly_summary := Some [];
     Dashboard.yearly_summary := None |}.

(** Scenario A of the specification as the dashboard receives it. *)
Definition scenarioASummary : Dashboard.Summary :=
  {| Dashboard.total_expenses := 100; Dashboard.total_income := 1000;
     Dashboard.net := 900; Dashboard.currency := "EUR";
     Dashboard.date_range := Some oneDay;
     Dashboard.income_count := Some 1%float;
     Dashboard.category_breakdown := Some [("Food", 100%float)];
     Dashboard.top_tags := Some [];
     Dashboard.monthly_summary := Some [];
     Dashboard.yearly_summary := Some [] |}.

(** A backend that answers every request with the same advice. *)
Definition advisor (r : Insights.Request) : Insights.Reply :=
  Insights.Resolved {| Insights.data_query := Insights.body_query r;
                       Insights.data_insights := "Spend less." |}.

(** A backend that denies every request: the caller is a guest to it. *)
Definition doorman (r : Insights.Request) : Insights.Reply :=
  Insights.Rejected (Some 403) (Some "Authentication required").

(** A backend that cannot be reached: no response, so no status and no
    detail. *)
Definition outage (r : Insights.Request) : Insights.Reply :=
  Insights.Rejected None None.

(** A backend for [App] that authenticates the token "tok-alice" and
    answers every other request. *)
Definition server : App.Server :=
  {| App.statusOf := fun _ =>
       App.Resolved {| App.authenticated := JS.Bool true;
                       App.mode := Some "trusted" |};
     App.summaryOf := fun _ => App.Resolved scenarioASummary;
     App.expensesOf := fun _ _ => App.Resolved (Some [groceries; rent]);
     App.incomeOf := fun _ => App.Resolved (Some []);
     App.loginOf := fun _ token => App.Resolved (JS.Bool (token =? "tok-alice")%string);
     App.logoutOf := fun _ => App.Resolved tt |}.

(** [new URLSearchParams({})] as text. *)
Definition noParams (filters : list (string * string)) : string := "".

(** Scenario A of the specification: one expense of 100 under "Food" and
    one income of 1000, both of 2024-03-15. *)
Definition scenarioA : list Backend.Transaction :=
  [ {| Backend.date := {| Backend.year := 2024; Backend.month := 3; Backend.day := 15 |};
       Backend.category := Some "Food"; Backend.tags := [];
       Backend.description := None;
       Backend.expenseAmount := 100; Backend.incomeAmount := 0;
       Backend.convertedAmount := 100 |};
    {| Backend.date := {| Backend.year := 2024; Backend.month := 3; Backend.day := 15 |};
       Backend.category := None; Backend.tags := [];
       Backend.description := Some "Salary";
       Backend.expenseAmount := 0; Backend.incomeAmount := 1000;
       Backend.convertedAmount := 1000 |} ].

Definition march15 : Backend.CalendarDate :=
  {| Backend.year := 2024; Backend.month := 3; Backend.day := 15 |}.

(** A seeding and a generator under which the factor of every day is 0.3
    (the draw is one half). *)
Definition seedYMD (d : Backend.CalendarDate) : Z :=
  Backend.year d * 10000 + Backend.month d * 100 + Backend.day d.
Definition halfGenerator (seed : Z) : Z := 2 ^ 52.

End Sample.

(** ** Vocabulary of the statements *)

(** A double that is not NaN as an integer: a finite one as a multiple
    of the smallest subnormal, [2^-1074], the infinities as [2^2200] and
    its opposite, beyond every finite one.  NaN counts as zero. *)
Definition scaled (x : spec_float) : Z :=
  match x with
  | S754_finite s m e => cond_Zopp s (Zpos m * 2 ^ (e + 1074))
  | S754_infinity s => cond_Zopp s (2 ^ 2200)
  | _ => 0
  end.

(** The sign of a double, zero for NaN. *)
Definition signOfSpec (x : spec_float) : comparison :=
  match x with
  | S754_finite s _ _ | S754_infinity s => if s then Lt else Gt
  | _ => Eq
  end.

Definition notNaN (x : spec_float) : bool :=
  match x with
  | S754_nan => false
  | _ => true
  end.

(** [t] occurs in [s]. *)
Definition occursIn (t s : string) : Prop :=
  exists p q, s = (p ++ t ++ q)%string.

(** The search term matches a text case-insensitively: the lower-cased
    term occurs in the lower-cased text. *)
Definition matchesCI (toLowerCase : string -> string) (term text : string) : Prop :=
  occursIn (toLowerCase term) (toLowerCase text).

(** A nullable field matches when it holds a non-empty text that
    matches. *)
Definition fieldMatches (toLowerCase : string -> string) (term : string)
           (v : option string) : Prop :=
  exists s, v = Some s /\ s <> ""%string /\ matchesCI toLowerCase term s.

(* ===================================================================== *)
(** * Part II: theorems *)
(* ===================================================================== *)

Local Open Scope list_scope.

(** ** Lists: order-preserving filters and the stable sort *)

Section ListFacts.
Context {A : Type}.

Lemma filter_filter (p q : A -> bool) (l : list A) :
  filter q (filter p l) = filter (fun x => p x && q x) l.
Proof.
  induction l as [|x l IH]; simpl; [reflexivity|].
  destruct (p x); simpl; [destruct (q x)|]; now rewrite IH.
Qed.

Lemma filter_true (l : list A) : filter (fun _ => true) l = l.
Proof. induction l as [|x l IH]; simpl; congruence. Qed.

Lemma precedes_cons (x a b : A) (l : list A) :
  precedes a b l -> precedes a b (x :: l).
Proof.
  intros (l1 & l2 & l3 & ->). now exists (x :: l1), l2, l3.
Qed.

Lemma precedes_head (a b : A) (l : list A) :
  In b l -> precedes a b (a :: l).
Proof.
  intros Hb. apply in_split in Hb as (l2 & l3 & ->).
  now exists [], l2, l3.
Qed.

Lemma precedes_inv (x a b : A) (l : list A) :
  precedes a b (x :: l) -> (x = a /\ In b l) \/ precedes a b l.
Proof.
  intros (l1 & l2 & l3 & E). destruct l1 as [|y l1]; simpl in E.
  - injection E as -> ->. left. split; [reflexivity|].
    apply in_or_app. right. now left.
  - injection E as -> ->. right. now exists l1, l2, l3.
Qed.

Lemma precedes_In (a b : A) (l : list A) :
  precedes a b l -> In a l /\ In b l.
Proof.
  intros (l1 & l2 & l3 & ->). split.
  - apply in_or_app. right. now left.
  - apply in_or_app. right. right. apply in_or_app. right. now left.
Qed.

(** A filter keeps the order of the rows it keeps. *)
Lemma precedes_filter (p : A -> bool) (a b : A) (l : list A) :
  precedes a b (filter p l) -> precedes a b l.
Proof.
  induction l as [|x l IH]; simpl.
  - intros (l1 & l2 & l3 & E). now destruct l1.
  - destruct (p x).
    + intros H. apply precedes_inv in H as [[-> Hb] | H].
      * apply precedes_head. apply filter_In in Hb. tauto.
      * apply precedes_cons. auto.
    + intros H. apply precedes_cons. auto.
Qed.

Variable compareFn : A -> A -> comparison.

Lemma insert_perm (x : A) (l : list A) :
  Permutation (JS.insert compareFn x l) (x :: l).
Proof.
  induction l as [|y l IH]; simpl; [reflexivity|].
  destruct (compareFn x y); try reflexivity.
  rewrite IH. apply perm_swap.
Qed.

Lemma sort_perm (l : list A) : Permutation (JS.sort compareFn l) l.
Proof.
  induction l as [|x l IH]; simpl; [reflexivity|].
  rewrite insert_perm. now constructor.
Qed.

Lemma sort_In (x : A) (l : list A) : In x (JS.sort compareFn l) <-> In x l.
Proof.
  split; apply Permutation_in; [|symmetry]; apply sort_perm.
Qed.

(** Insertion moves [x] past [y] only when [compareFn x y] is positive:
    rows of a class whose members never compare greater than one another
    keep their places relative to each other. *)
Lemma filter_insert (p : A -> bool) (x : A) (l : list A) :
  (forall y, In y l -> p x = true -> p y = true -> compareFn x y <> Gt) ->
  filter p (JS.insert compareFn x l) = filter p (x :: l).
Proof.
  induction l as [|y l IH]; intros Hx; simpl; [reflexivity|].
  destruct (compareFn x y) eqn:E; try reflexivity.
  simpl in *. rewrite IH by (intros z Hz; apply Hx; now right).
  destruct (p x) eqn:Px, (p y) eqn:Py; try reflexivity.
  exfalso. apply (Hx y); auto.
Qed.

Lemma filter_sort (p : A -> bool) (l : list A) :
  (forall a b, In a l -> In b l -> p a = true -> p b = true ->
               compareFn a b <> Gt) ->
  filter p (JS.sort compareFn l) = filter p l.
Proof.
  induction l as [|x l IH]; intros H; simpl; [reflexivity|].
  rewrite filter_insert.
  - simpl. rewrite IH; [reflexivity|].
    intros a b Ha Hb. apply H; now right.
  - intros y Hy. apply H; [now left|right]. exact (proj1 (sort_In y l) Hy).
Qed.

(** If [a] ends up before [b] after an insertion although it was not
    before, the inserted row is [b] and it travelled past [a]. *)
Lemma precedes_insert (x a b : A) (l : list A) :
  precedes a b (JS.insert compareFn x l) ->
  precedes a b (x :: l) \/ (b = x /\ compareFn x a = Gt).
Proof.
  induction l as [|y l IH]; simpl; [now left|].
  destruct (compareFn x y) eqn:E; try (now left).
  intros H. apply precedes_inv in H as [[-> Hb] | H].
  - apply (Permutation_in _ (insert_perm x l)) in Hb as [<- | Hb].
    + right. now split.
    + left. apply precedes_cons, precedes_head, Hb.
  - apply IH in H as [H | H]; [|now right].
    left. apply precedes_inv in H as [[-> Hb] | H].
    + apply precedes_head. now right.
    + now apply precedes_cons, precedes_cons.
Qed.

Lemma precedes_sort (a b : A) (l : list A) :
  compareFn b a <> Gt ->
  precedes a b (JS.sort compareFn l) -> precedes a b l.
Proof.
  intros Hba. induction l as [|x l IH]; simpl; [easy|].
  intros H. apply precedes_insert in H as [H | [-> E]]; [|contradiction].
  apply precedes_inv in H as [[-> Hb] | H].
  - apply precedes_head. exact (proj1 (sort_In b l) Hb).
  - apply precedes_cons. auto.
Qed.

End ListFacts.

Section SortedFacts.
Context {A : Type} (compareFn : A -> A -> comparison).

Hypothesis asymmetric : forall a b, compareFn a b = Gt -> compareFn b a <> Gt.

Lemma insert_HdRel (x y : A) (l : list A) :
  inOrder compareFn y x -> HdRel (inOrder compareFn) y l -> HdRel (inOrder compareFn) y (JS.insert compareFn x l).
Proof.
  intros Hyx Hl. destruct l as [|z l]; simpl; [now constructor|].
  destruct (compareFn x z); constructor; try exact Hyx.
  now inversion Hl.
Qed.

Lemma insert_Sorted (x : A) (l : list A) :
  Sorted (inOrder compareFn) l -> Sorted (inOrder compareFn) (JS.insert compareFn x l).
Proof.
  induction 1 as [|y l Hl IH Hhd]; simpl; [repeat constructor|].
  destruct (compareFn x y) eqn:E.
  - repeat constructor; try assumption. unfold inOrder. congruence.
  - repeat constructor; try assumption. unfold inOrder. congruence.
  - constructor; [exact IH|].
    apply insert_HdRel; [|exact Hhd]. now apply asymmetric.
Qed.

Lemma sort_Sorted (l : list A) : Sorted (inOrder compareFn) (JS.sort compareFn l).
Proof.
  induction l as [|x l IH]; simpl; [constructor|now apply insert_Sorted].
Qed.

End SortedFacts.

(** *** A stable sort has one result *)

Section Uniqueness.
Context {A : Type} (D : A -> Prop) (compareFn : A -> A -> comparison).
Hypothesis consistent : Consistent D compareFn.

Lemma tied_of_both (a b : A) :
  D a -> D b -> compareFn a b <> Gt -> compareFn b a <> Gt ->
  tied compareFn a b = true.
Proof.
  intros Da Db Hab Hba. unfold tied.
  rewrite (cmp_opp D compareFn consistent a b Da Db) in Hba.
  destruct (compareFn a b); simpl in *; congruence.
Qed.

Lemma tied_no_swap (x a b : A) :
  D x -> D a -> D b ->
  tied compareFn x a = true -> tied compareFn x b = true ->
  compareFn a b <> Gt.
Proof.
  unfold tied. intros Dx Da Db Ha Hb.
  apply (cmp_trans D compareFn consistent a x b Da Dx Db).
  - rewrite (cmp_opp D compareFn consistent x a Dx Da).
    destruct (compareFn x a); simpl; congruence.
  - destruct (compareFn x b); congruence.
Qed.

(** Two sorted arrangements of the same rows that keep every class of tied
    rows in the same order are the same list. *)
Lemma sorted_stable_unique (l1 l2 : list A) :
  Forall D l1 ->
  Permutation l1 l2 ->
  StronglySorted (inOrder compareFn) l1 ->
  StronglySorted (inOrder compareFn) l2 ->
  (forall x, D x -> filter (tied compareFn x) l1 = filter (tied compareFn x) l2) ->
  l1 = l2.
Proof.
  revert l2. induction l1 as [|a l1 IH]; intros l2 HD Hperm S1 S2 Hcls.
  - now apply Permutation_nil in Hperm.
  - destruct l2 as [|b l2].
    + symmetry in Hperm. now apply Permutation_nil in Hperm.
    + inversion HD as [|? ? Da HD1]; subst.
      assert (Db : D b).
      { rewrite Forall_forall in HD. apply HD.
        apply (Permutation_in b (Permutation_sym Hperm)). now left. }
      inversion S1 as [|? ? S1' H1]; subst.
      inversion S2 as [|? ? S2' H2]; subst.
      assert (Hab : compareFn a b <> Gt).
      { assert (Hin : In b (a :: l1))
          by (apply (Permutation_in b (Permutation_sym Hperm)); now left).
        destruct Hin as [<- | Hin].
        - rewrite (cmp_refl D compareFn consistent a Da). discriminate.
        - rewrite Forall_forall in H1. now apply H1. }
      assert (Hba : compareFn b a <> Gt).
      { assert (Hin : In a (b :: l2))
          by (apply (Permutation_in a Hperm); now left).
        destruct Hin as [<- | Hin].
        - rewrite (cmp_refl D compareFn consistent b Db). discriminate.
        - rewrite Forall_forall in H2. now apply H2. }
      assert (E : a = b).
      { pose proof (Hcls a Da) as Ha. simpl in Ha.
        unfold tied at 1 3 in Ha.
        rewrite (cmp_refl D compareFn consistent a Da) in Ha.
        fold (tied compareFn a b) in Ha.
        rewrite (tied_of_both a b Da Db Hab Hba) in Ha. now injection Ha. }
      subst b. f_equal. apply IH; try assumption.
      * now apply Permutation_cons_inv in Hperm.
      * intros x Dx. pose proof (Hcls x Dx) as Hx. simpl in Hx.
        destruct (tied compareFn x a); [now injection Hx|exact Hx].
Qed.

Lemma insert_StronglySorted (x : A) (l : list A) :
  D x -> Forall D l ->
  StronglySorted (inOrder compareFn) l ->
  StronglySorted (inOrder compareFn) (JS.insert compareFn x l).
Proof.
  intros Dx HD HS. induction HS as [|y l HS IH Hy]; simpl.
  - repeat constructor.
  - inversion HD as [|? ? Dy HD']; subst.
    assert (Hcase : compareFn x y = Gt \/ compareFn x y <> Gt)
      by (destruct (compareFn x y); [right|right|left]; congruence).
    destruct Hcase as [E | E].
    + rewrite E. constructor; [now apply IH|].
      apply (Permutation_Forall (Permutation_sym (insert_perm compareFn x l))).
      constructor; [|exact Hy]. unfold inOrder.
      rewrite (cmp_opp D compareFn consistent x y Dx Dy), E. discriminate.
    + assert (HS' : StronglySorted (inOrder compareFn) (x :: y :: l)).
      { constructor; [now constructor|]. constructor; [exact E|].
        rewrite Forall_forall in *. intros z Hz.
        apply (cmp_trans D compareFn consistent x y z); auto.
        now apply Hy. }
      destruct (compareFn x y); try exact HS'. congruence.
Qed.

Lemma sort_StronglySorted (l : list A) :
  Forall D l -> StronglySorted (inOrder compareFn) (JS.sort compareFn l).
Proof.
  induction l as [|x l IH]; simpl; intros HD; [constructor|].
  inversion HD; subst. apply insert_StronglySorted; auto.
  apply (Permutation_Forall (Permutation_sym (sort_perm compareFn l))).
  assumption.
Qed.

(** So [JS.sort] is the one list a stable sort can return. *)
Lemma sort_unique (l l' : list A) :
  Forall D l ->
  Permutation l' l ->
  StronglySorted (inOrder compareFn) l' ->
  (forall x, D x -> filter (tied compareFn x) l' = filter (tied compareFn x) l) ->
  l' = JS.sort compareFn l.
Proof.
  intros HD Hperm Hsorted Hstable.
  assert (HD' : Forall D l').
  { apply (Permutation_Forall (Permutation_sym Hperm)). exact HD. }
  apply sorted_stable_unique; try assumption.
  - rewrite Hperm. symmetry. apply sort_perm.
  - now apply sort_StronglySorted.
  - intros x Dx. rewrite Hstable by assumption. symmetry.
    apply filter_sort. intros a b Ha Hb Ta Tb.
    rewrite Forall_forall in HD. apply (tied_no_swap x a b); auto.
Qed.

End Uniqueness.

(** *** The reference sort and the contract *)

Section SortContract.
Context {A : Type} (compareFn : A -> A -> comparison).

Lemma Consistent_weaken (D D' : A -> Prop) :
  (forall a, D' a -> D a) ->
  Consistent D compareFn -> Consistent D' compareFn.
Proof.
  intros Hsub [Hrefl Hopp Htrans]. split.
  - intros a Da. apply Hrefl. auto.
  - intros a b Da Db. apply Hopp; auto.
  - intros a b c Da Db Dc. apply Htrans; auto.
Qed.

(** [JS.sort] returns a list the contract admits. *)
Lemma sort_may_return (l : list A) :
  sortMayReturn compareFn l (JS.sort compareFn l).
Proof.
  split; [apply sort_perm|]. intros Hc. split.
  - apply (sort_StronglySorted (fun x => In x l) compareFn Hc).
    now apply Forall_forall.
  - intros x Hx. apply filter_sort. intros a b Ha Hb Ta Tb.
    apply (tied_no_swap (fun x => In x l) compareFn Hc x a b); assumption.
Qed.

(** With a consistent comparator it is the only one. *)
Lemma sortMayReturn_consistent (l rows : list A) :
  Consistent (fun x => In x l) compareFn ->
  sortMayReturn compareFn l rows ->
  rows = JS.sort compareFn l.
Proof.
  intros Hc [Hperm H]. destruct (H Hc) as [Hsorted Hstable].
  apply (sort_unique (fun x => In x l) compareFn Hc); try assumption.
  now apply Forall_forall.
Qed.

End SortContract.


(** ** Doubles: the sign of a difference *)

Section FloatFacts.

Lemma signOfFloat_spec (v : float) : JS.signOfFloat v = signOfSpec (Prim2SF v).
Proof.
  unfold JS.signOfFloat. rewrite !ltb_spec.
  change (Prim2SF 0) with (S754_zero false).
  destruct (Prim2SF v) as [s|[]| |[] m e]; reflexivity.
Qed.

Lemma is_nan_spec (x : float) :
  PrimFloat.is_nan x = negb (notNaN (Prim2SF x)).
Proof.
  unfold PrimFloat.is_nan. rewrite eqb_spec.
  destruct (Prim2SF x) as [s|[]| |s m e]; try reflexivity.
  unfold SFeqb, SFcompare.
  rewrite Z.compare_refl, Pos.compare_cont_refl. now destruct s.
Qed.

(** A shift to the right keeps a mantissa above the bound it was above
    before the shift. *)
Lemma shr_1_lower (mrs : shr_record) (c : Z) :
  0 <= c -> c * 2 <= shr_m mrs -> c <= shr_m (shr_1 mrs).
Proof.
  destruct mrs as [[|[p|p|]|p] r s]; simpl; lia.
Qed.

Lemma pow2_xO (p : positive) : 2 ^ Zpos p~0 = 2 ^ Zpos p * 2 ^ Zpos p.
Proof. change (Zpos p~0) with (2 * Zpos p). apply Z.pow_twice_r. Qed.

Lemma pow2_xI (p : positive) : 2 ^ Zpos p~1 = 2 ^ Zpos p * 2 ^ Zpos p * 2.
Proof.
  change (Zpos p~1) with (2 * Zpos p + 1).
  rewrite Z.pow_add_r, Z.pow_twice_r by lia. reflexivity.
Qed.

Lemma iter_shr_1_lower (p : positive) (mrs : shr_record) (c : Z) :
  0 <= c -> c * 2 ^ Zpos p <= shr_m mrs ->
  c <= shr_m (iter_pos shr_1 p mrs).
Proof.
  revert mrs c. induction p as [p IH|p IH|]; intros mrs c Hc H; simpl.
  - assert (Hp : 0 < 2 ^ Zpos p) by (apply Z.pow_pos_nonneg; lia).
    rewrite pow2_xI in H.
    apply IH; [exact Hc|]. apply IH; [nia|]. apply shr_1_lower; [nia|]. nia.
  - assert (Hp : 0 < 2 ^ Zpos p) by (apply Z.pow_pos_nonneg; lia).
    rewrite pow2_xO in H.
    apply IH; [exact Hc|]. apply IH; [nia|]. nia.
  - apply shr_1_lower; [exact Hc|]. exact H.
Qed.

Lemma digits2_pos_lower (m : positive) :
  2 ^ (Zpos (digits2_pos m) - 1) <= Zpos m.
Proof.
  induction m as [m IH|m IH|]; cbn [digits2_pos]; [| |reflexivity].
  - rewrite Pos2Z.inj_succ. replace (Z.succ (Zpos (digits2_pos m)) - 1)
      with (Z.succ (Zpos (digits2_pos m) - 1)) by lia.
    rewrite Z.pow_succ_r by lia. lia.
  - rewrite Pos2Z.inj_succ. replace (Z.succ (Zpos (digits2_pos m)) - 1)
      with (Z.succ (Zpos (digits2_pos m) - 1)) by lia.
    rewrite Z.pow_succ_r by lia. lia.
Qed.

(** The shift of [shr_fexp] never empties a positive mantissa whose
    exponent is not below the least one. *)
Lemma shr_fexp_positive (m : positive) (e : Z) (l : location) :
  -1074 <= e ->
  1 <= shr_m (fst (shr_fexp prec emax (Zpos m) e l))
  /\ -1074 <= snd (shr_fexp prec emax (Zpos m) e l).
Proof.
  intros He. unfold shr_fexp, shr, fexp, SpecFloat.emin, prec, emax, Zdigits2.
  set (D := Zpos (digits2_pos m)).
  destruct (Z.max (D + e - 53) (3 - 1024 - 53) - e) as [|p|p] eqn:En; simpl.
  - split; [destruct l as [|[]]; simpl; lia|exact He].
  - split; [|lia].
    apply iter_shr_1_lower; [lia|].
    assert (Hm : shr_m (shr_record_of_loc (Zpos m) l) = Zpos m)
      by (destruct l as [|[]]; reflexivity).
    rewrite Hm. rewrite Z.mul_1_l.
    apply Z.le_trans with (2 ^ (D - 1)); [|apply digits2_pos_lower].
    apply Z.pow_le_mono_r; lia.
  - split; [destruct l as [|[]]; simpl; lia|exact He].
Qed.

Lemma round_nearest_even_positive (m : Z) (l : location) :
  1 <= m -> 1 <= round_nearest_even m l.
Proof.
  intros Hm. destruct l as [|[]]; simpl; try lia.
  destruct (Z.even m); lia.
Qed.

Lemma binary_round_aux_sign (s : bool) (m : positive) (e : Z) (l : location) :
  -1074 <= e ->
  signOfSpec (binary_round_aux prec emax s (Zpos m) e l) = if s then Lt else Gt.
Proof.
  intros He. unfold binary_round_aux.
  destruct (shr_fexp_positive m e l He) as [Hm1 He1].
  destruct (shr_fexp prec emax (Zpos m) e l) as [mrs' e']. simpl in Hm1, He1.
  pose proof (round_nearest_even_positive (shr_m mrs') (loc_of_shr_record mrs') Hm1) as Hr.
  destruct (round_nearest_even (shr_m mrs') (loc_of_shr_record mrs')) as [|r|r];
    try lia.
  destruct (shr_fexp_positive r e' loc_Exact He1) as [Hm2 _].
  destruct (shr_fexp prec emax (Zpos r) e' loc_Exact) as [mrs'' e'']. simpl in Hm2.
  destruct (shr_m mrs'') as [|q|q]; try lia.
  now destruct (e'' <=? emax - prec).
Qed.

Lemma binary_round_sign (s : bool) (m : positive) (e : Z) :
  -1074 <= e ->
  signOfSpec (binary_round prec emax s m e) = if s then Lt else Gt.
Proof.
  intros He. unfold binary_round, shl_align.
  destruct (fexp prec emax (Zpos (digits2_pos m) + e) - e) as [|d|d] eqn:Ed;
    apply binary_round_aux_sign; try exact He.
  unfold fexp, SpecFloat.emin, prec, emax. lia.
Qed.

Lemma binary_normalize_sign (z e : Z) :
  -1074 <= e ->
  signOfSpec (binary_normalize prec emax z e false) = (z ?= 0).
Proof.
  intros He. destruct z as [|p|p]; simpl; [reflexivity| |];
    now rewrite binary_round_sign.
Qed.

Lemma iter_xO (m d : positive) : Zpos (Pos.iter xO m d) = Zpos m * 2 ^ Zpos d.
Proof.
  revert m. induction d as [|d IH] using Pos.peano_ind; intros m.
  - simpl. lia.
  - rewrite Pos.iter_succ, Pos2Z.inj_xO, IH, Pos2Z.inj_succ, Z.pow_succ_r by lia.
    ring.
Qed.

Lemma shl_align_value (m : positive) (e e' : Z) :
  e' <= e ->
  Zpos (fst (shl_align m e e')) = Zpos m * 2 ^ (e - e').
Proof.
  intros Hle. unfold shl_align.
  destruct (e' - e) as [|d|d] eqn:Ed; simpl.
  - replace (e - e') with 0 by lia. simpl. lia.
  - lia.
  - rewrite iter_xO. replace (e - e') with (Zpos d) by lia. reflexivity.
Qed.

Lemma digits2_pos_upper (m : positive) :
  Zpos m < 2 ^ Zpos (digits2_pos m).
Proof.
  induction m as [m IH|m IH|]; cbn [digits2_pos]; [| |reflexivity];
    rewrite Pos2Z.inj_succ, Z.pow_succ_r by lia; lia.
Qed.

Lemma valid_exponent (s : bool) (m : positive) (e : Z) :
  valid_binary (S754_finite s m e) = true -> -1074 <= e.
Proof.
  unfold valid_binary, SpecFloat.valid_binary, bounded, canonical_mantissa, fexp, SpecFloat.emin, prec, emax.
  intros H. apply andb_prop in H as [H _]. apply Z.eqb_eq in H. lia.
Qed.

(** A finite double lies strictly between the two infinities. *)
Lemma valid_magnitude (s : bool) (m : positive) (e : Z) :
  valid_binary (S754_finite s m e) = true ->
  0 < Zpos m * 2 ^ (e + 1074) < 2 ^ 2200.
Proof.
  intros V. pose proof (valid_exponent s m e V) as He.
  unfold valid_binary, SpecFloat.valid_binary, bounded, canonical_mantissa,
    fexp, SpecFloat.emin, prec, emax in V.
  apply andb_prop in V as [Hc Hb]. apply Z.eqb_eq in Hc. apply Z.leb_le in Hb.
  assert (Hd : Zpos (digits2_pos m) <= 53) by lia.
  pose proof (digits2_pos_upper m) as Hm.
  assert (Hm' : Zpos m < 2 ^ 53).
  { eapply Z.lt_le_trans; [exact Hm|]. apply Z.pow_le_mono_r; lia. }
  assert (Hp : 0 < 2 ^ (e + 1074)) by (apply Z.pow_pos_nonneg; lia).
  assert (Hq : 2 ^ (e + 1074) <= 2 ^ 2045) by (apply Z.pow_le_mono_r; lia).
  split; [lia|].
  apply Z.lt_le_trans with (2 ^ 53 * 2 ^ (e + 1074)).
  - apply Z.mul_lt_mono_pos_r; assumption.
  - apply Z.le_trans with (2 ^ 53 * 2 ^ 2045).
    + apply Z.mul_le_mono_nonneg_l; [|exact Hq]. apply Z.pow_nonneg. lia.
    + rewrite <- Z.pow_add_r by lia. apply Z.pow_le_mono_r; lia.
Qed.

Lemma compare_scaled (a b k : Z) :
  0 < k -> (a * k ?= b * k) = (a - b ?= 0).
Proof.
  intros Hk.
  destruct (Z.compare_spec (a - b) 0); [apply Z.compare_eq_iff
                                       |apply Z.compare_lt_iff
                                       |apply Z.compare_gt_iff]; nia.
Qed.

Lemma cond_Zopp_mul (s : bool) (a b : Z) :
  cond_Zopp s a * b = cond_Zopp s (a * b).
Proof. destruct s; simpl; ring. Qed.

(** The sign of a difference of two doubles, neither of them NaN, is the
    sign of the comparison of their values: what is not zero does not
    round to zero. *)
Lemma SFsub_sign (x y : spec_float) :
  valid_binary x = true -> valid_binary y = true ->
  notNaN x = true -> notNaN y = true ->
  signOfSpec (SF64sub x y) = (scaled x ?= scaled y).
Proof.
  intros Vx Vy Fx Fy.
  assert (HB : 0 < 2 ^ 2200) by (apply Z.pow_pos_nonneg; lia).
  destruct x as [sx|sx| |sx mx ex]; try discriminate Fx;
    destruct y as [sy|sy| |sy my ey]; try discriminate Fy;
    try (pose proof (valid_magnitude _ _ _ Vx) as Hx);
    try (pose proof (valid_magnitude _ _ _ Vy) as Hy).
  - now destruct sx, sy.
  - unfold SF64sub, SFsub, scaled, signOfSpec, cond_Zopp.
    destruct sy; cbn [negb]; symmetry;
      [apply Z.compare_gt_iff|apply Z.compare_lt_iff]; lia.
  - unfold SF64sub, SFsub, scaled, signOfSpec, cond_Zopp.
    destruct sy; cbn [negb]; symmetry;
      [apply Z.compare_gt_iff|apply Z.compare_lt_iff]; lia.
  - unfold SF64sub, SFsub, scaled, signOfSpec, cond_Zopp.
    destruct sx; symmetry;
      [apply Z.compare_lt_iff|apply Z.compare_gt_iff]; lia.
  - unfold SF64sub, SFsub, scaled, signOfSpec, cond_Zopp.
    destruct sx, sy; symmetry;
      [apply Z.compare_eq_iff|apply Z.compare_lt_iff
      |apply Z.compare_gt_iff|apply Z.compare_eq_iff]; lia.
  - unfold SF64sub, SFsub, scaled, signOfSpec, cond_Zopp.
    destruct sx, sy; symmetry;
      [apply Z.compare_lt_iff|apply Z.compare_lt_iff
      |apply Z.compare_gt_iff|apply Z.compare_gt_iff]; lia.
  - unfold SF64sub, SFsub, scaled, signOfSpec, cond_Zopp.
    destruct sx; symmetry;
      [apply Z.compare_lt_iff|apply Z.compare_gt_iff]; lia.
  - unfold SF64sub, SFsub, scaled, signOfSpec, cond_Zopp.
    destruct sx, sy; cbn [negb]; symmetry;
      [apply Z.compare_gt_iff|apply Z.compare_lt_iff
      |apply Z.compare_gt_iff|apply Z.compare_lt_iff]; lia.
  - apply valid_exponent in Vx, Vy.
    unfold SF64sub, SFsub. rewrite binary_normalize_sign by lia.
    rewrite !shl_align_value by lia.
    set (ez := Z.min ex ey).
    assert (Hk : 0 < 2 ^ (ez + 1074)) by (apply Z.pow_pos_nonneg; lia).
    assert (Ex : scaled (S754_finite sx mx ex)
                 = cond_Zopp sx (Zpos mx * 2 ^ (ex - ez)) * 2 ^ (ez + 1074)).
    { unfold scaled. rewrite cond_Zopp_mul, <- Z.mul_assoc, <- Z.pow_add_r by lia.
      do 3 f_equal. lia. }
    assert (Ey : scaled (S754_finite sy my ey)
                 = cond_Zopp sy (Zpos my * 2 ^ (ey - ez)) * 2 ^ (ez + 1074)).
    { unfold scaled. rewrite cond_Zopp_mul, <- Z.mul_assoc, <- Z.pow_add_r by lia.
      do 3 f_equal. lia. }
    rewrite Ex, Ey.
    symmetry. apply compare_scaled. exact Hk.
Qed.

(** [a - b] on two numbers has the sign of the comparison of [a] with
    [b]. *)
Lemma signOfFloat_sub (x y : float) :
  PrimFloat.is_nan x = false -> PrimFloat.is_nan y = false ->
  JS.signOfFloat (x - y) = (scaled (Prim2SF x) ?= scaled (Prim2SF y)).
Proof.
  intros Fx Fy. rewrite is_nan_spec in Fx, Fy.
  apply negb_false_iff in Fx, Fy.
  rewrite signOfFloat_spec, sub_spec.
  apply SFsub_sign; auto using Prim2SF_valid.
Qed.

(** [v || 0] is never NaN. *)
Lemma orZero_not_nan (v : option float) : PrimFloat.is_nan (JS.orZero v) = false.
Proof.
  unfold JS.orZero. destruct v as [x|]; [|reflexivity].
  destruct (PrimFloat.eqb x 0 || PrimFloat.is_nan x) eqn:E; [reflexivity|].
  now apply orb_false_iff in E.
Qed.

End FloatFacts.

(** ** ExpenseList: the filters and the sort *)

Section ExpenseListFacts.
Import ExpenseList.
Variable newDate : option string -> JS.Date.
Variable subMonths : JS.Date -> Z -> JS.Date.
Variable toLowerCase : string -> string.

Local Abbreviation filtered := (ExpenseList.filtered newDate subMonths toLowerCase).
Local Abbreviation filteredExpenses := (ExpenseList.filteredExpenses newDate subMonths toLowerCase).
Local Abbreviation passesFilters := (ExpenseList.passesFilters newDate subMonths toLowerCase).
Local Abbreviation dateOk := (ExpenseList.dateOk newDate subMonths).
Local Abbreviation searchOk := (ExpenseList.searchOk toLowerCase).
Local Abbreviation compareFn := (ExpenseList.compareFn newDate).
Local Abbreviation mostRecentDate := (ExpenseList.mostRecentDate newDate).

Lemma stage_as_filter (c : bool) (p : Expense -> bool) (l : list Expense) :
  (if c then filter p l else l) = filter (fun e => if c then p e else true) l.
Proof. destruct c; [reflexivity|]. now rewrite filter_true. Qed.

(** The chain of filters is one filter by the conjunction of its tests:
    the rows that pass stay in input order. *)
Lemma filtered_as_filter isIncome st now expenses :
  filtered isIncome st now expenses
  = filter (passesFilters isIncome st now expenses) expenses.
Proof.
  unfold ExpenseList.filtered, ExpenseList.passesFilters.
  rewrite (stage_as_filter (JS.truthyStr (searchTerm st))).
  rewrite (stage_as_filter (JS.truthyStr (filterCategory st) && _)).
  rewrite (stage_as_filter (negb (dateRange st =? "all")%string)).
  rewrite !filter_filter.
  replace (if negb isIncome
           then filter (fun e => JS.gtZero (Expense_amount e)) expenses
           else filter (fun e => JS.gtZero (Income_amount e)) expenses)
    with (filter (sideOk isIncome) expenses)
    by (unfold sideOk; now destruct isIncome).
  rewrite !filter_filter. apply filter_ext. intros e.
  unfold ExpenseList.dateOk, categoryOk, ExpenseList.searchOk.
  now rewrite !andb_assoc.
Qed.

Lemma filteredExpenses_In isIncome st now expenses e :
  In e (filteredExpenses isIncome st now expenses)
  <-> In e expenses /\ passesFilters isIncome st now expenses e = true.
Proof.
  unfold ExpenseList.filteredExpenses.
  now rewrite sort_In, filtered_as_filter, filter_In.
Qed.

(** [Math.max] over valid dates is the latest of them, and it is one of
    them. *)
Lemma fold_maxStep_None (ds : list JS.Date) :
  fold_left JS.maxStep ds None = None.
Proof. induction ds as [|d ds IH]; simpl; [reflexivity|exact IH]. Qed.

Lemma fold_maxStep_Some (ds : list JS.Date) (a m : Z) :
  fold_left JS.maxStep ds (Some a) = Some m ->
  a <= m
  /\ (m = a \/ In (Some m) ds)
  /\ (forall d, In d ds -> exists t, d = Some t /\ t <= m).
Proof.
  revert a. induction ds as [|d ds IH]; simpl; intros a H.
  - injection H as <-. repeat split; [lia|now left|easy].
  - destruct d as [b|]; simpl in H; [|now rewrite fold_maxStep_None in H].
    apply IH in H as (Hle & Hin & Hall).
    split; [lia|]. split.
    + destruct Hin as [-> | Hin]; [|now right; right].
      destruct (Z.max_spec a b) as [[_ ->] | [_ ->]]; [right|]; now left.
    + intros d [<- | Hd]; [|now apply Hall].
      exists b. split; [reflexivity|lia].
Qed.

Lemma dateOfMax_latest (ds : list JS.Date) (m : Z) :
  JS.dateOfMax ds = Some m ->
  In (Some m) ds /\ (forall d, In d ds -> exists t, d = Some t /\ t <= m).
Proof.
  destruct ds as [|[a|] ds]; simpl; [easy| |now rewrite fold_maxStep_None].
  intros H. apply fold_maxStep_Some in H as (Hle & Hin & Hall). split.
  - destruct Hin as [-> | Hin]; [now left|now right].
  - intros d [<- | Hd]; [|now apply Hall]. now exists a.
Qed.

(** The view never depends on the clock: [new Date()] is only read for an
    empty list, of which nothing is shown. *)
Lemma filteredExpenses_clock isIncome st now now' expenses :
  filteredExpenses isIncome st now' expenses
  = filteredExpenses isIncome st now expenses.
Proof.
  unfold ExpenseList.filteredExpenses. rewrite !filtered_as_filter.
  now destruct expenses.
Qed.

Lemma passesFilters_all isIncome st now expenses e :
  dateRange st = "all" ->
  passesFilters isIncome st now expenses e
  = sideOk isIncome e && categoryOk st e && searchOk st e.
Proof.
  intros E. unfold ExpenseList.passesFilters, ExpenseList.dateOk.
  rewrite E. simpl. now rewrite andb_true_r.
Qed.

Lemma categoryOk_withDateRange st v e :
  categoryOk (withDateRange st v) e = categoryOk st e.
Proof. reflexivity. Qed.

Lemma searchOk_withDateRange st v e :
  searchOk (withDateRange st v) e = searchOk st e.
Proof. reflexivity. Qed.

End ExpenseListFacts.

Section DateOrder.
Import ExpenseList.
Variable newDate : option string -> JS.Date.
Variable subMonths : JS.Date -> Z -> JS.Date.
Variable toLowerCase : string -> string.

Lemma signOfInt_dateMinus_asym (a b : JS.Date) :
  JS.signOfInt (JS.dateMinus a b) = Gt -> JS.signOfInt (JS.dateMinus b a) <> Gt.
Proof.
  destruct a as [x|], b as [y|]; simpl; try discriminate.
  rewrite !Z.compare_gt_iff. lia.
Qed.

(** On rows with valid dates the date comparators are consistent. *)
Lemma compareFn_date_consistent (order : string) :
  order = "date-desc" \/ order = "date-asc" ->
  Consistent (hasValidDate newDate) (compareFn newDate order).
Proof.
  intros Horder. unfold compareFn.
  destruct Horder as [-> | ->]; simpl; split.
  - intros a (ta & ->). simpl. now rewrite Z.sub_diag.
  - intros a b (ta & ->) (tb & ->). simpl.
    rewrite <- !Z.compare_sub. apply Z.compare_antisym.
  - intros a b c (ta & ->) (tb & ->) (tc & ->). simpl.
    change ((tb - ta <= 0) -> (tc - tb <= 0) -> (tc - ta <= 0)). lia.
  - intros a (ta & ->). simpl. now rewrite Z.sub_diag.
  - intros a b (ta & ->) (tb & ->). simpl.
    rewrite <- !Z.compare_sub. apply Z.compare_antisym.
  - intros a b c (ta & ->) (tb & ->) (tc & ->). simpl.
    change ((ta - tb <= 0) -> (tb - tc <= 0) -> (ta - tc <= 0)). lia.
Qed.

(** So they are consistent on a list of rows whose dates all convert. *)
Lemma compareFn_consistent_on_dated_rows (order : string) (expenses : list Expense) :
  order = "date-desc" \/ order = "date-asc" ->
  Forall (hasValidDate newDate) expenses ->
  Consistent (fun e => In e expenses) (compareFn newDate order).
Proof.
  intros Horder Hvalid.
  apply (Consistent_weaken _ (hasValidDate newDate)).
  - intros a Ha. rewrite Forall_forall in Hvalid. now apply Hvalid.
  - now apply compareFn_date_consistent.
Qed.

(** The amount comparators are consistent on all rows: [a || 0] is never
    NaN, and the sign of the difference of two doubles is that of the
    comparison of their values. *)
Lemma compareFn_amount_consistent (order : string) (D : Expense -> Prop) :
  order = "amount-desc" \/ order = "amount-asc" ->
  Consistent D (compareFn newDate order).
Proof.
  intros Horder. unfold compareFn.
  destruct Horder as [-> | ->]; simpl; split.
  - intros a _. rewrite signOfFloat_sub by apply orZero_not_nan.
    apply Z.compare_refl.
  - intros a b _ _. rewrite !signOfFloat_sub by apply orZero_not_nan.
    apply Z.compare_antisym.
  - intros a b c _ _ _. rewrite !signOfFloat_sub by apply orZero_not_nan.
    rewrite !Z.compare_le_iff. lia.
  - intros a _. rewrite signOfFloat_sub by apply orZero_not_nan.
    apply Z.compare_refl.
  - intros a b _ _. rewrite !signOfFloat_sub by apply orZero_not_nan.
    apply Z.compare_antisym.
  - intros a b c _ _ _. rewrite !signOfFloat_sub by apply orZero_not_nan.
    rewrite !Z.compare_le_iff. lia.
Qed.

(** A sort order the comparator does not know leaves every pair tied. *)
Lemma compareFn_consistent_on_unknown_order (order : string) (D : Expense -> Prop) :
  order <> "date-desc" -> order <> "date-asc" ->
  order <> "amount-desc" -> order <> "amount-asc" ->
  Consistent D (compareFn newDate order).
Proof.
  intros H1 H2 H3 H4. unfold compareFn.
  apply String.eqb_neq in H1, H2, H3, H4. rewrite H1, H2, H3, H4.
  split; intros; simpl; congruence.
Qed.

(** So the comparator of every sort order is consistent on rows that can
    be compared under it. *)
Lemma compareFn_consistent_on_comparable (order : string) (expenses : list Expense) :
  comparable newDate order expenses ->
  Consistent (fun e => In e expenses) (compareFn newDate order).
Proof.
  intros Hdates.
  destruct (String.eqb_spec order "date-desc") as [E1|N1];
    [apply compareFn_consistent_on_dated_rows; auto|].
  destruct (String.eqb_spec order "date-asc") as [E2|N2];
    [apply compareFn_consistent_on_dated_rows; auto|].
  destruct (String.eqb_spec order "amount-desc") as [E3|N3];
    [apply compareFn_amount_consistent; now left|].
  destruct (String.eqb_spec order "amount-asc") as [E4|N4];
    [apply compareFn_amount_consistent; now right|].
  now apply compareFn_consistent_on_unknown_order.
Qed.

(** One row whose date does not convert ties with every row, and the
    date comparators are no longer consistent once two other rows differ
    in date. *)
Lemma compareFn_undated_not_consistent (D : Expense -> Prop) (a u b : Expense) :
  D a -> D u -> D b ->
  newDate (Date u) = None ->
  compareFn newDate "date-desc" a b = Gt ->
  ~ Consistent D (compareFn newDate "date-desc").
Proof.
  intros Da Du Db Hu Hab Hc.
  apply (cmp_trans D _ Hc a u b Da Du Db); [| |exact Hab].
  - unfold compareFn. simpl. rewrite Hu. simpl. discriminate.
  - unfold compareFn. simpl. rewrite Hu.
    destruct (newDate (Date b)); simpl; discriminate.
Qed.

End DateOrder.


(** ** Strings: occurrence *)

Section StringFacts.
Local Open Scope string_scope.

Lemma append_empty_r (s : string) : s ++ "" = s.
Proof. induction s as [|c s IH]; simpl; congruence. Qed.

Lemma append_assoc (a b c : string) : (a ++ b) ++ c = a ++ b ++ c.
Proof. induction a as [|x a IH]; simpl; congruence. Qed.

Lemma startsWith_spec (s t : string) :
  JS.startsWith s t = true <-> exists q, s = t ++ q.
Proof.
  revert s. induction t as [|b t IH]; intros [|a s]; simpl.
  - split; [now exists ""|reflexivity].
  - split; [now exists (String a s)|reflexivity].
  - split; [discriminate|intros (q & E); discriminate].
  - rewrite andb_true_iff, Ascii.eqb_eq, IH. split.
    + intros (-> & q & ->). now exists q.
    + intros (q & E). injection E as -> ->. split; [reflexivity|now exists q].
Qed.

Lemma includes_spec (s t : string) :
  JS.includes s t = true <-> occursIn t s.
Proof.
  unfold occursIn. induction s as [|a s IH]; cbn [JS.includes].
  - rewrite orb_false_r, startsWith_spec. split.
    + intros (q & E). now exists "", q.
    + intros (p & q & E). destruct p; [now exists q|discriminate].
  - rewrite orb_true_iff, startsWith_spec, IH. split.
    + intros [(q & E) | (p & q & E)].
      * now exists "", q.
      * exists (String a p), q. simpl. now rewrite E.
    + intros (p & q & E). destruct p as [|x p]; simpl in E.
      * left. now exists q.
      * right. injection E as _ E. now exists p, q.
Qed.

End StringFacts.

(** ** ExpenseList: the claims about the list view *)

Section ExpenseListClaims.
Import ExpenseList.
Variable newDate : option string -> JS.Date.
Variable subMonths : JS.Date -> Z -> JS.Date.
Variable toLowerCase : string -> string.

Local Abbreviation filtered := (ExpenseList.filtered newDate subMonths toLowerCase).
Local Abbreviation filteredExpenses := (ExpenseList.filteredExpenses newDate subMonths toLowerCase).
Local Abbreviation lists := (ExpenseList.lists newDate subMonths toLowerCase).
Local Abbreviation passesFilters := (ExpenseList.passesFilters newDate subMonths toLowerCase).
Local Abbreviation searchOk := (ExpenseList.searchOk toLowerCase).
Local Abbreviation compareFn := (ExpenseList.compareFn newDate).

(** C7, as the code has it.  Let the rows handed to the component be
    comparable under the chosen sort order: if it is one of the two date
    orders, every row's date converts.  Then for every filter setting and
    every sort order, whatever list a conforming
    [sort] leaves in the memo, it is the one list [filteredExpenses]; it is
    in the order the comparator asks for; the rows of any class whose
    members pairwise compare equal are listed in exactly the order in
    which the input holds them; and if [a] is listed before [b] and the two
    compare equal, then [a] stood before [b] in the input. *)
Theorem listed_rows_keep_tied_order isIncome st now expenses rows :
  comparable newDate (sortOrder st) expenses ->
  lists isIncome st now expenses rows ->
  rows = filteredExpenses isIncome st now expenses
  /\ StronglySorted (inOrder (compareFn (sortOrder st))) rows
  /\ (forall inClass : Expense -> bool,
         (forall a b, In a expenses -> In b expenses ->
                      inClass a = true -> inClass b = true ->
                      compareFn (sortOrder st) a b = Eq) ->
         filter inClass rows
         = filter inClass
                  (filter (passesFilters isIncome st now expenses) expenses))
  /\ (forall a b,
         compareFn (sortOrder st) a b = Eq ->
         precedes a b rows ->
         precedes a b expenses).
Proof.
  intros Hcomparable Hl.
  pose proof (compareFn_consistent_on_comparable newDate _ _ Hcomparable) as Hc.
  assert (Hsub : forall e, In e (filtered isIncome st now expenses) -> In e expenses).
  { intros e He. rewrite filtered_as_filter in He.
    apply filter_In in He. tauto. }
  assert (Hc' : Consistent (fun e => In e (filtered isIncome st now expenses))
                           (compareFn (sortOrder st)))
    by (apply (Consistent_weaken _ _ _ Hsub Hc)).
  assert (E : rows = filteredExpenses isIncome st now expenses)
    by (apply sortMayReturn_consistent; assumption).
  destruct Hl as [_ Hl]. destruct (Hl Hc') as [Hsorted _].
  split; [exact E|]. split; [exact Hsorted|]. split.
  - intros inClass Htied. rewrite E. unfold ExpenseList.filteredExpenses.
    rewrite filter_sort, filtered_as_filter; [reflexivity|].
    intros a b Ha Hb Pa Pb.
    rewrite (Htied a b (Hsub a Ha) (Hsub b Hb) Pa Pb). discriminate.
  - intros a b Hab H. rewrite E in H.
    unfold ExpenseList.filteredExpenses in H.
    destruct (precedes_In _ _ _ H) as [Ha Hb].
    apply sort_In in Ha, Hb.
    apply precedes_sort in H.
    + rewrite filtered_as_filter in H. now apply precedes_filter in H.
    + rewrite (cmp_opp _ _ Hc a b (Hsub a Ha) (Hsub b Hb)), Hab. discriminate.
Qed.

(** C10. With the date range "3months" (the initial setting) the list
    shows a row exactly when it is shown under "all" and its date is not
    before [subMonths(latest, 3)], where [latest] is the greatest date of
    the rows handed to the component: one of their dates, not before any
    of them.  The clock is never consulted, and under "all" a row is shown
    exactly when it passes the side, category and search filters. *)
Theorem default_view_last_three_months isIncome st now expenses :
  dateRange st = "3months" ->
  let latest := JS.dateOfMax (map (fun e => newDate (Date e)) expenses) in
  (forall e,
      In e (filteredExpenses isIncome st now expenses)
      <-> In e (filteredExpenses isIncome (withDateRange st "all") now expenses)
          /\ JS.dateGe (newDate (Date e)) (subMonths latest 3) = true)
  /\ (forall m, latest = Some m ->
        (exists e, In e expenses /\ newDate (Date e) = Some m)
        /\ (forall e, In e expenses ->
              exists t, newDate (Date e) = Some t /\ t <= m))
  /\ (forall now',
        filteredExpenses isIncome st now' expenses
        = filteredExpenses isIncome st now expenses)
  /\ (forall e,
        In e (filteredExpenses isIncome (withDateRange st "all") now expenses)
        <-> In e expenses /\ sideOk isIncome e = true
            /\ categoryOk st e = true /\ searchOk st e = true).
Proof.
  intros Hrange latest. split; [|split; [|split]].
  - intros e. split.
    + intros He. apply filteredExpenses_In in He as [Hin Hp].
      unfold ExpenseList.passesFilters in Hp.
      rewrite !andb_true_iff in Hp. destruct Hp as [[[Hs Hd] Hc] Hq].
      split.
      * apply filteredExpenses_In. split; [exact Hin|].
        rewrite passesFilters_all by reflexivity.
        now rewrite categoryOk_withDateRange, searchOk_withDateRange, Hs, Hc, Hq.
      * unfold ExpenseList.dateOk in Hd. rewrite Hrange in Hd. simpl in Hd.
        destruct expenses; [destruct Hin|exact Hd].
    + intros [He Hd]. apply filteredExpenses_In in He as [Hin Hp].
      rewrite passesFilters_all in Hp by reflexivity.
      rewrite categoryOk_withDateRange, searchOk_withDateRange in Hp.
      rewrite !andb_true_iff in Hp. destruct Hp as [[Hs Hc] Hq].
      apply filteredExpenses_In. split; [exact Hin|].
      unfold ExpenseList.passesFilters, ExpenseList.dateOk.
      rewrite Hrange. simpl.
      rewrite Hs, Hc, Hq.
      destruct expenses; [destruct Hin|].
      unfold ExpenseList.mostRecentDate, monthsToSubtract. simpl.
      subst latest. simpl in Hd. now rewrite Hd.
  - intros m H. apply dateOfMax_latest in H as [Hin Hall]. split.
    + apply in_map_iff in Hin as (e & He & Hin). now exists e.
    + intros e He. apply Hall, in_map_iff. now exists e.
  - intros now'. apply filteredExpenses_clock.
  - intros e. split.
    + intros He. apply filteredExpenses_In in He as [Hin Hp].
      rewrite passesFilters_all in Hp by reflexivity.
      rewrite categoryOk_withDateRange, searchOk_withDateRange in Hp.
      rewrite !andb_true_iff in Hp. destruct Hp as [[Hs Hc] Hq].
      repeat split; assumption.
    + intros (Hin & Hs & Hc & Hq). apply filteredExpenses_In.
      split; [exact Hin|]. rewrite passesFilters_all by reflexivity.
      now rewrite categoryOk_withDateRange, searchOk_withDateRange, Hs, Hc, Hq.
Qed.

End ExpenseListClaims.

(** On 2024-03-15 two rows tie; the newest-first view lists the later
    purchase first and the two tied rows in input order. *)
Example newest_first_view :
  ExpenseList.filteredExpenses UTC.newDate UTC.subMonths ASCII.toLowerCase false
    ExpenseList.initialState 0
    [Sample.groceries; Sample.cinema; Sample.rent]
  = [Sample.cinema; Sample.groceries; Sample.rent].
Proof. vm_compute. reflexivity. Qed.

(** On these rows V8's sort gives the same list, as it must. *)
Example newest_first_on_V8 :
  V8.sort (ExpenseList.compareFn UTC.newDate "date-desc")
    [Sample.groceries; Sample.cinema; Sample.rent]
  = [Sample.cinema; Sample.groceries; Sample.rent].
Proof. vm_compute. reflexivity. Qed.

(** Highest amount first; the state after choosing "amount-desc" and
    pressing "Update Table". *)
Example highest_amount_first :
  let chosen :=
    {| ExpenseList.tempSortOrder := "amount-desc";
       ExpenseList.tempFilterCategory := "All";
       ExpenseList.tempSearchTerm := "";
       ExpenseList.tempDateRange := "all";
       ExpenseList.sortOrder := "date-desc";
       ExpenseList.filterCategory := "All";
       ExpenseList.searchTerm := "";
       ExpenseList.dateRange := "3months" |} in
  ExpenseList.filteredExpenses UTC.newDate UTC.subMonths ASCII.toLowerCase false
    (ExpenseList.applyFilters chosen) 0
    [Sample.groceries; Sample.cinema; Sample.rent]
  = [Sample.rent; Sample.cinema; Sample.groceries].
Proof. vm_compute. reflexivity. Qed.

(** One row whose date does not parse makes [Math.max] NaN and the cut-off
    an Invalid Date: under a date range nothing is listed. *)
Example undated_row_hides_the_window :
  ExpenseList.filtered UTC.newDate UTC.subMonths ASCII.toLowerCase false
    ExpenseList.initialState 0 [Sample.groceries; Sample.undated] = [].
Proof. vm_compute. reflexivity. Qed.

(** The two early returns of the component. *)
Example nothing_to_list :
  ExpenseList.render UTC.newDate UTC.subMonths ASCII.toLowerCase (Some []) false false
    ExpenseList.initialState 0 = ExpenseList.NoData
  /\ ExpenseList.render UTC.newDate UTC.subMonths ASCII.toLowerCase None false true
       ExpenseList.initialState 0 = ExpenseList.NoData
  /\ ExpenseList.render UTC.newDate UTC.subMonths ASCII.toLowerCase
       (Some [Sample.rent]) true false
       ExpenseList.initialState 0 = ExpenseList.Loading.
Proof. repeat split. Qed.

Lemma sample_rows_dated :
  Forall (ExpenseList.hasValidDate UTC.newDate)
         [Sample.groceries; Sample.cinema; Sample.rent].
Proof. repeat constructor; eexists; vm_compute; reflexivity. Defined.

Lemma onMarch15_tied (a b : ExpenseList.Expense) :
  Sample.onMarch15 a = true -> Sample.onMarch15 b = true ->
  ExpenseList.compareFn UTC.newDate "date-desc" a b = Eq.
Proof.
  unfold Sample.onMarch15, ExpenseList.compareFn.
  destruct (UTC.newDate (ExpenseList.Date a)) as [ta|]; [|discriminate].
  destruct (UTC.newDate (ExpenseList.Date b)) as [tb|]; [|discriminate].
  intros Ha Hb. apply Z.eqb_eq in Ha, Hb. subst. reflexivity.
Defined.

(** Three dated rows, two of them of 2024-03-15: the memo can only hold
    the newest-first list, and the two rows of 2024-03-15 stand in it as
    they stand in the input. *)
Lemma listed_rows_keep_tied_order_witness :
  ExpenseList.comparable UTC.newDate
    (ExpenseList.sortOrder ExpenseList.initialState)
    [Sample.groceries; Sample.cinema; Sample.rent]
  /\ ExpenseList.lists UTC.newDate UTC.subMonths ASCII.toLowerCase false
       ExpenseList.initialState 0
       [Sample.groceries; Sample.cinema; Sample.rent]
       [Sample.cinema; Sample.groceries; Sample.rent]
  /\ filter Sample.onMarch15 [Sample.cinema; Sample.groceries; Sample.rent]
     = filter Sample.onMarch15
         (filter (ExpenseList.passesFilters UTC.newDate UTC.subMonths
                    ASCII.toLowerCase false ExpenseList.initialState 0
                    [Sample.groceries; Sample.cinema; Sample.rent])
                 [Sample.groceries; Sample.cinema; Sample.rent]).
Proof.
  assert (Hc : ExpenseList.comparable UTC.newDate
                 (ExpenseList.sortOrder ExpenseList.initialState)
                 [Sample.groceries; Sample.cinema; Sample.rent]).
  { intros _. exact sample_rows_dated. }
  assert (Hl : ExpenseList.lists UTC.newDate UTC.subMonths ASCII.toLowerCase false
                 ExpenseList.initialState 0
                 [Sample.groceries; Sample.cinema; Sample.rent]
                 [Sample.cinema; Sample.groceries; Sample.rent]).
  { exact (sort_may_return
             (ExpenseList.compareFn UTC.newDate "date-desc")
             [Sample.groceries; Sample.cinema; Sample.rent]). }
  split; [exact Hc|]. split; [exact Hl|].
  exact (proj1 (proj2 (proj2
           (listed_rows_keep_tied_order UTC.newDate UTC.subMonths
              ASCII.toLowerCase false ExpenseList.initialState 0
              [Sample.groceries; Sample.cinema; Sample.rent]
              [Sample.cinema; Sample.groceries; Sample.rent] Hc Hl)))
         Sample.onMarch15
         (fun a b _ _ => onMarch15_tied a b)).
Defined.

(** Under "all" and newest first, three dated rows and, third in the
    input, a row whose date does not convert.  It compares as equal (NaN)
    to every row, so the comparator is not consistent and the standard
    admits any rearrangement, among them the one with the dated rows
    newest first and the undated row last. *)
Lemma undated_rows_may_be_listed :
  ExpenseList.lists UTC.newDate UTC.subMonths ASCII.toLowerCase false
    (ExpenseList.withDateRange ExpenseList.initialState "all") 0
    [Sample.groceries; Sample.cinema; Sample.undated; Sample.skiPass]
    [Sample.skiPass; Sample.cinema; Sample.groceries; Sample.undated].
Proof.
  assert (E : ExpenseList.filtered UTC.newDate UTC.subMonths ASCII.toLowerCase false
                (ExpenseList.withDateRange ExpenseList.initialState "all") 0
                [Sample.groceries; Sample.cinema; Sample.undated; Sample.skiPass]
              = [Sample.groceries; Sample.cinema; Sample.undated; Sample.skiPass])
    by (vm_compute; reflexivity).
  unfold ExpenseList.lists. rewrite E. split.
  - apply Permutation_sym.
    apply (Permutation_cons_app [Sample.skiPass; Sample.cinema] [Sample.undated]).
    apply (Permutation_cons_app [Sample.skiPass] [Sample.undated]).
    apply perm_swap.
  - intros Hc. exfalso. revert Hc.
    apply (compareFn_undated_not_consistent UTC.newDate _
             Sample.groceries Sample.undated Sample.skiPass);
      simpl; try tauto; vm_compute; reflexivity.
Defined.

(** The claim as worded, for every input list, fails.  With the rows
    above, V8 returns the three dated rows newest first and the undated
    row last: the undated row and the latest row compare equal, the undated
    row stands first of the two in the input and second in the list. *)
Lemma invalid_date_reorders_tied_rows :
  ExpenseList.lists UTC.newDate UTC.subMonths ASCII.toLowerCase false
    (ExpenseList.withDateRange ExpenseList.initialState "all") 0
    [Sample.groceries; Sample.cinema; Sample.undated; Sample.skiPass]
    [Sample.skiPass; Sample.cinema; Sample.groceries; Sample.undated]
  /\ V8.sort (ExpenseList.compareFn UTC.newDate "date-desc")
       (ExpenseList.filtered UTC.newDate UTC.subMonths ASCII.toLowerCase false
          (ExpenseList.withDateRange ExpenseList.initialState "all") 0
          [Sample.groceries; Sample.cinema; Sample.undated; Sample.skiPass])
     = [Sample.skiPass; Sample.cinema; Sample.groceries; Sample.undated]
  /\ ExpenseList.compareFn UTC.newDate "date-desc" Sample.undated Sample.skiPass = Eq
  /\ ExpenseList.compareFn UTC.newDate "date-desc" Sample.skiPass Sample.undated = Eq
  /\ precedes Sample.undated Sample.skiPass
       [Sample.groceries; Sample.cinema; Sample.undated; Sample.skiPass]
  /\ ~ precedes Sample.undated Sample.skiPass
         [Sample.skiPass; Sample.cinema; Sample.groceries; Sample.undated].
Proof.
  split; [|split; [|split; [|split; [|split]]]].
  - exact undated_rows_may_be_listed.
  - vm_compute. reflexivity.
  - vm_compute. reflexivity.
  - vm_compute. reflexivity.
  - now exists [Sample.groceries; Sample.cinema], [], [].
  - intros H.
    apply precedes_inv in H as [[E _] | H]; [discriminate E|].
    apply precedes_inv in H as [[E _] | H]; [discriminate E|].
    apply precedes_inv in H as [[E _] | H]; [discriminate E|].
    apply precedes_inv in H as [[_ []] | (l1 & l2 & l3 & E)].
    now destruct l1.
Qed.

(** The latest row is of 2024-05-31, so the cut-off is 2024-02-29: the row
    of that day is shown, the row of the day before is not. *)
Lemma default_view_last_three_months_witness :
  ExpenseList.dateRange ExpenseList.initialState = "3months"
  /\ In Sample.leapDay
        (ExpenseList.filteredExpenses UTC.newDate UTC.subMonths ASCII.toLowerCase false
           ExpenseList.initialState 0
           [Sample.dayBefore; Sample.skiPass; Sample.leapDay])
  /\ ~ In Sample.dayBefore
        (ExpenseList.filteredExpenses UTC.newDate UTC.subMonths ASCII.toLowerCase false
           ExpenseList.initialState 0
           [Sample.dayBefore; Sample.skiPass; Sample.leapDay]).
Proof.
  pose proof (default_view_last_three_months UTC.newDate UTC.subMonths
                ASCII.toLowerCase false
                ExpenseList.initialState 0
                [Sample.dayBefore; Sample.skiPass; Sample.leapDay] eq_refl)
    as H.
  cbv zeta in H. destruct H as [Hshown _].
  split; [reflexivity|]. split.
  - apply (proj2 (Hshown _)). split; [|vm_compute; reflexivity].
    vm_compute. right. left. reflexivity.
  - intros Hin. apply (proj1 (Hshown _)) in Hin. destruct Hin as [_ Hdate].
    vm_compute in Hdate. discriminate Hdate.
Defined.

(** ** ExpenseList: the free-text search *)

Section SearchClaims.
Import ExpenseList.
Variable newDate : option string -> JS.Date.
Variable subMonths : JS.Date -> Z -> JS.Date.
Variable toLowerCase : string -> string.

Local Abbreviation filteredExpenses := (ExpenseList.filteredExpenses newDate subMonths toLowerCase).
Local Abbreviation searchMatch := (ExpenseList.searchMatch toLowerCase).
Local Abbreviation searchOk := (ExpenseList.searchOk toLowerCase).

(** [v && v.toLowerCase().includes(term)] for a lower-cased term. *)
Lemma andThen_includes (term : string) (v : option string) :
  JS.andThen v (fun s => JS.includes (toLowerCase s) (toLowerCase term)) = true
  <-> fieldMatches toLowerCase term v.
Proof.
  unfold fieldMatches, matchesCI. destruct v as [s|]; simpl.
  - rewrite andb_true_iff, includes_spec. split.
    + intros [Hs H]. exists s. split; [reflexivity|]. split; [|exact H].
      intros ->. discriminate Hs.
    + intros (s' & E & Hs & H). injection E as <-. split; [|exact H].
      destruct s; [contradiction|reflexivity].
  - split; [discriminate|]. now intros (s & E & _).
Qed.

Lemma searchMatch_fields (term : string) (e : Expense) :
  searchMatch (toLowerCase term) e = true
  <-> fieldMatches toLowerCase term (Category e)
      \/ fieldMatches toLowerCase term (Tags e)
      \/ fieldMatches toLowerCase term (Description e).
Proof.
  unfold ExpenseList.searchMatch.
  rewrite !orb_true_iff, !andThen_includes. tauto.
Qed.

Lemma searchOk_nonempty (st : State) (e : Expense) :
  searchTerm st <> ""%string ->
  searchOk st e = searchMatch (toLowerCase (searchTerm st)) e.
Proof.
  unfold ExpenseList.searchOk. destruct (searchTerm st); [contradiction|reflexivity].
Qed.

Lemma passesFilters_withSearchTerm isIncome st now expenses e :
  ExpenseList.passesFilters newDate subMonths toLowerCase isIncome st now expenses e
  = ExpenseList.passesFilters newDate subMonths toLowerCase isIncome
      (withSearchTerm st "") now expenses e
    && searchOk st e.
Proof.
  unfold ExpenseList.passesFilters. simpl. now rewrite andb_true_r.
Qed.

(** C8, as the code has it.  For a non-empty search term a row is listed
    exactly when it is listed without the search (it passes the side, date
    and category filters) and the term matches, case-insensitively, its
    category, its [Tags] text as a whole (the comma-separated string the
    row carries), or its description: the lower-cased term occurs in the
    lower-cased text. *)
Theorem search_matches_category_tags_text_description
        isIncome st now expenses e :
  searchTerm st <> ""%string ->
  (In e (filteredExpenses isIncome st now expenses)
   <-> In e (filteredExpenses isIncome (withSearchTerm st "") now expenses)
       /\ (fieldMatches toLowerCase (searchTerm st) (Category e)
           \/ fieldMatches toLowerCase (searchTerm st) (Tags e)
           \/ fieldMatches toLowerCase (searchTerm st) (Description e))).
Proof.
  intros Hterm.
  rewrite !filteredExpenses_In, passesFilters_withSearchTerm.
  rewrite andb_true_iff, (searchOk_nonempty st e Hterm).
  rewrite (searchMatch_fields _ e). tauto.
Qed.

End SearchClaims.

(** Scenario B of the specification: "ski" finds the row tagged
    "skiing,winter" and nothing else. *)
Example search_ski :
  ExpenseList.filteredExpenses UTC.newDate UTC.subMonths ASCII.toLowerCase false
    (ExpenseList.withSearchTerm ExpenseList.initialState "Ski") 0
    [Sample.cinema; Sample.skiPass]
  = [Sample.skiPass].
Proof. vm_compute. reflexivity. Qed.

Lemma search_matches_category_tags_text_description_witness :
  ExpenseList.searchTerm
    (ExpenseList.withSearchTerm ExpenseList.initialState "Ski") <> ""%string
  /\ (In Sample.skiPass
        (ExpenseList.filteredExpenses UTC.newDate UTC.subMonths ASCII.toLowerCase false
           (ExpenseList.withSearchTerm ExpenseList.initialState "Ski") 0
           [Sample.cinema; Sample.skiPass])
      <-> In Sample.skiPass
            (ExpenseList.filteredExpenses UTC.newDate UTC.subMonths
               ASCII.toLowerCase false
               (ExpenseList.withSearchTerm
                  (ExpenseList.withSearchTerm ExpenseList.initialState "Ski") "") 0
               [Sample.cinema; Sample.skiPass])
          /\ (fieldMatches ASCII.toLowerCase "Ski" (ExpenseList.Category Sample.skiPass)
              \/ fieldMatches ASCII.toLowerCase "Ski" (ExpenseList.Tags Sample.skiPass)
              \/ fieldMatches ASCII.toLowerCase "Ski"
                   (ExpenseList.Description Sample.skiPass))).
Proof.
  assert (Hterm : ExpenseList.searchTerm
                    (ExpenseList.withSearchTerm ExpenseList.initialState "Ski")
                  <> ""%string) by discriminate.
  split; [exact Hterm|].
  exact (search_matches_category_tags_text_description
           UTC.newDate UTC.subMonths ASCII.toLowerCase false
           (ExpenseList.withSearchTerm ExpenseList.initialState "Ski") 0
           [Sample.cinema; Sample.skiPass] Sample.skiPass Hterm).
Defined.

(** The claim as worded, with the tags taken one by one, fails: the term
    "g,w" runs across the comma of "skiing,winter", so the row is listed
    although the term matches neither of the tags the row's cell shows,
    nor the category, nor the (absent) description. *)
Lemma search_term_across_two_tags :
  In Sample.skiPass
     (ExpenseList.filteredExpenses UTC.newDate UTC.subMonths ASCII.toLowerCase false
        (ExpenseList.withSearchTerm ExpenseList.initialState "g,w") 0
        [Sample.cinema; Sample.skiPass])
  /\ ExpenseList.tagList ASCII.trim Sample.skiPass = ["skiing"; "winter"]%string
  /\ ~ (fieldMatches ASCII.toLowerCase "g,w" (ExpenseList.Category Sample.skiPass)
        \/ (exists tag, In tag (ExpenseList.tagList ASCII.trim Sample.skiPass)
                        /\ matchesCI ASCII.toLowerCase "g,w" tag)
        \/ fieldMatches ASCII.toLowerCase "g,w"
             (ExpenseList.Description Sample.skiPass)).
Proof.
  split; [|split].
  - vm_compute. left. reflexivity.
  - vm_compute. reflexivity.
  - intros [(s & E & _ & H) | [(tag & Hin & H) | (s & E & _)]].
    + injection E as <-. apply includes_spec in H. discriminate H.
    + apply includes_spec in H.
      destruct Hin as [<- | [<- | []]]; discriminate H.
    + discriminate E.
Qed.

(** ** AIInsights: the gate in front of the insights request *)

Section InsightsClaims.
Import Insights.
Variable VITE_API_URL : option string.
Variable backend : Request -> Reply.

Local Abbreviation getInsights := (Insights.getInsights VITE_API_URL).
Local Abbreviation getInsightsChat := (Insights.getInsightsChat VITE_API_URL).
Local Abbreviation insightsRequest := (Insights.insightsRequest VITE_API_URL).

Lemma exec_bind {A B : Type} (m : M A) (k : A -> M B) (w : World) :
  exec (bind m k) w = exec (k (fst (m w))) (exec m w).
Proof. unfold exec, bind. now destruct (m w). Qed.

Lemma dropLast_last {A : Type} (l : list A) (x : A) : dropLast (l ++ [x]) = l.
Proof. apply removelast_last. Qed.


End InsightsClaims.



(** A successful answer lands in the chat and clears the input. *)
Example chat_after_answer :
  Insights.chatHistory
    (Insights.exec
       (Insights.getInsightsChat None (JS.Bool true) Sample.advisor None)
       Insights.initialWorld)
  = [ {| Insights.role := "user"; Insights.content := "Analyze my spending" |};
      {| Insights.role := "assistant"; Insights.content := "Spend less." |} ]
  /\ Insights.customQuery
       (Insights.exec
          (Insights.getInsightsChat None (JS.Bool true) Sample.advisor None)
          Insights.initialWorld) = ""%string.
Proof. split; reflexivity. Qed.

(** ** Dashboard: the balance card *)

(** C9 at the empty dataset.  The summary with all totals zero and no
    dates passes the loading guard, no date is drawn, and the badge under
    the net balance is computed as [0 / 0 * 100]: the card shows
    "+ NaN%". *)
Theorem balance_badge_of_empty_summary (formatMonth : string -> option string) :
  Dashboard.render formatMonth (Some Sample.emptySummary)
  = Dashboard.Hero
      {| Dashboard.expensesAmount := Some "0.00";
         Dashboard.rangeStart := None;
         Dashboard.rangeEnd := None;
         Dashboard.incomeAmount := Some "0.00";
         Dashboard.incomeEntries := 0;
         Dashboard.balanceAmount := Some "0.00";
         Dashboard.balancePositive := true;
         Dashboard.badge := Some "+ NaN%" |}.
Proof. vm_compute. reflexivity. Qed.

(** With income and no expense the same division gives "+ Infinity%". *)
Example balance_badge_without_expenses :
  Dashboard.render UTC.formatMonth (Some Sample.incomeOnlySummary)
  = Dashboard.Hero
      {| Dashboard.expensesAmount := Some "0.00";
         Dashboard.rangeStart := Some "Mar 2024";
         Dashboard.rangeEnd := Some "Mar 2024";
         Dashboard.incomeAmount := Some "1000.00";
         Dashboard.incomeEntries := 1;
         Dashboard.balanceAmount := Some "1000.00";
         Dashboard.balancePositive := true;
         Dashboard.badge := Some "+ Infinity%" |}.
Proof. vm_compute. reflexivity. Qed.

Example balance_badge_scenario_A :
  Dashboard.balanceBadge Sample.scenarioASummary = Some "+ 900.0%".
Proof. vm_compute. reflexivity. Qed.

(** Whatever the net balance, a zero total of expenses never gives a
    finite percentage. *)
Lemma netPercent_zero_total (s : Dashboard.Summary) :
  PrimFloat.is_zero (Dashboard.total_expenses s) = true ->
  PrimFloat.is_finite (Dashboard.netPercent s) = false.
Proof.
  unfold Dashboard.netPercent, PrimFloat.is_zero.
  generalize (Dashboard.total_expenses s) (Dashboard.net s). intros z n Hz.
  rewrite eqb_spec in Hz.
  assert (Ez : exists sg, Prim2SF z = S754_zero sg).
  { change (Prim2SF 0) with (S754_zero false) in Hz.
    destruct (Prim2SF z) as [sg|[]| |[] m e]; try discriminate Hz. now exists sg. }
  destruct Ez as (sg & Ez).
  unfold PrimFloat.is_finite, PrimFloat.is_nan, PrimFloat.is_infinity.
  rewrite !eqb_spec, abs_spec, mul_spec, div_spec, abs_spec, Ez.
  change (Prim2SF 100) with (S754_finite false 7036874417766400 (-46)).
  change (Prim2SF infinity) with (S754_infinity false).
  destruct (Prim2SF n) as [sn|sn| |sn m e]; destruct sg; reflexivity.
Qed.

(** ** The backend contract: obfuscation *)

Section BackendClaims.
Import Backend.
Local Open Scope Q_scope.
Variable seedOfDate : CalendarDate -> Z.
Variable generator : Z -> Z.

Local Abbreviation dailyFactor := (Backend.dailyFactor seedOfDate generator).

Lemma unitDraw_range (seed : Z) :
  0 <= unitDraw generator seed /\ unitDraw generator seed < 1.
Proof.
  unfold unitDraw.
  pose proof (Z.mod_pos_bound (generator seed) (2 ^ 53) eq_refl) as [Hlo Hhi].
  set (k := (generator seed mod 2 ^ 53)%Z) in *.
  change (2 ^ 53)%Z with 9007199254740992%Z in *.
  rewrite <- Qmake_Qdiv. unfold Qle, Qlt. simpl. lia.
Qed.

Lemma dailyFactor_positive (today : CalendarDate) : 0 < dailyFactor today.
Proof.
  unfold Backend.dailyFactor.
  destruct (unitDraw_range (seedOfDate today)) as [Hlo _]. lra.
Qed.

(** Scaling by any one non-zero factor keeps every ratio. *)
Lemma scaling_preserves_ratio (factor v total : Q) :
  ~ factor == 0 -> ~ total == 0 ->
  obfuscateAmount factor v / obfuscateAmount factor total == v / total.
Proof. intros Hf Ht. unfold obfuscateAmount. field. now split. Qed.

(** C3. For every summary whose total of expenses is not zero and every
    entry of its category breakdown: the obfuscated summary holds the entry
    with its value scaled by the day's factor, and the scaled value over
    the scaled total is the raw value over the raw total (exactly, in
    rational arithmetic). *)
Theorem obfuscation_preserves_proportions
        (today : CalendarDate) (s : AggregateSummary) (c : string) (v : Q) :
  ~ totalExpenses s == 0 ->
  In (c, v) (categoryBreakdown s) ->
  let factor := dailyFactor today in
  let guest := transform factor s in
  In (c, obfuscateAmount factor v) (categoryBreakdown guest)
  /\ obfuscateAmount factor v / totalExpenses guest == v / totalExpenses s.
Proof.
  intros Htotal Hin factor guest. split.
  - unfold guest, transform, obfuscateEntries. simpl.
    apply in_map_iff. now exists (c, v).
  - unfold guest, transform. simpl.
    apply scaling_preserves_ratio; [|exact Htotal].
    pose proof (dailyFactor_positive today) as Hpos. fold factor in Hpos. lra.
Qed.

End BackendClaims.

(** Scenario A: the trusted summary, and the guest summary under the
    factor 0.3. *)
Example scenario_A_trusted :
  let s := Backend.summarize Sample.scenarioA in
  (Backend.totalExpenses s == 100 /\ Backend.totalIncome s == 1000
   /\ Backend.net s == 900)%Q
  /\ map fst (Backend.categoryBreakdown s) = ["Food"]
  /\ Backend.incomeCount s = 1%nat.
Proof. vm_compute. intuition congruence. Qed.

Example scenario_A_guest :
  let factor :=
    Backend.dailyFactor Sample.seedYMD Sample.halfGenerator Sample.march15 in
  let s := Backend.transform factor (Backend.summarize Sample.scenarioA) in
  (factor == 3 # 10
   /\ Backend.totalExpenses s == 30 /\ Backend.totalIncome s == 300
   /\ Backend.net s == 270)%Q
  /\ map fst (Backend.categoryBreakdown s) = ["Food"].
Proof. vm_compute. intuition congruence. Qed.

(** Scenario C: the empty dataset. *)
Example scenario_C_empty :
  Backend.summarize []
  = {| Backend.totalExpenses := 0; Backend.totalIncome := 0;
       Backend.net := 0 - 0; Backend.categoryBreakdown := [];
       Backend.topTags := []; Backend.incomeCount := 0 |}.
Proof. reflexivity. Qed.

Lemma obfuscation_preserves_proportions_witness :
  (~ Backend.totalExpenses (Backend.summarize Sample.scenarioA) == 0)%Q
  /\ In ("Food"%string, 0 + 100)%Q
        (Backend.categoryBreakdown (Backend.summarize Sample.scenarioA))
  /\ (Backend.obfuscateAmount
        (Backend.dailyFactor Sample.seedYMD Sample.halfGenerator Sample.march15)
        (0 + 100)
      / Backend.totalExpenses
          (Backend.transform
             (Backend.dailyFactor Sample.seedYMD Sample.halfGenerator Sample.march15)
             (Backend.summarize Sample.scenarioA))
      == (0 + 100) / Backend.totalExpenses (Backend.summarize Sample.scenarioA))%Q.
Proof.
  assert (Htotal : (~ Backend.totalExpenses (Backend.summarize Sample.scenarioA) == 0)%Q)
    by (vm_compute; discriminate).
  assert (Hin : In ("Food"%string, 0 + 100)%Q
                   (Backend.categoryBreakdown (Backend.summarize Sample.scenarioA)))
    by (vm_compute; left; reflexivity).
  split; [exact Htotal|]. split; [exact Hin|].
  exact (proj2 (obfuscation_preserves_proportions Sample.seedYMD
                  Sample.halfGenerator Sample.march15
                  (Backend.summarize Sample.scenarioA) "Food" (0 + 100)%Q
                  Htotal Hin)).
Defined.

(** *** What the doubles of the backend do to the rational model

    In binary64 the affine map of a draw can round up to the upper end:
    with [lo] and [hi] the doubles nearest to 0.2 and 0.4, [lo + (hi - lo) * u]
    is [hi] for the largest 53-bit fraction [u] and below [hi] for the next
    smaller one. *)
Example uniform_endpoint_in_doubles :
  let u := (9007199254740991 / 9007199254740992)%float in
  let u' := (9007199254740990 / 9007199254740992)%float in
  let lo := 0x1.999999999999ap-3%float in
  let hi := 0x1.999999999999ap-2%float in
  (lo + (hi - lo) * u =? hi)%float = true
  /\ (lo + (hi - lo) * u' <? hi)%float = true.
Proof. vm_compute. split; reflexivity. Qed.

(** Scaling a difference and subtracting the scaled terms round apart:
    with the double nearest to 0.3, [(3 - 1) * 0.3] is not
    [3 * 0.3 - 1 * 0.3]. *)
Example scaled_net_differs_in_doubles :
  let factor := 0x1.3333333333333p-2%float in
  ((3 - 1) * factor =? 3 * factor - 1 * factor)%float = false
  /\ (3 * factor - 1 * factor <? (3 - 1) * factor)%float = true.
Proof. vm_compute. split; reflexivity. Qed.

(* ===================================================================== *)
(** * Part III: further properties of the components *)
(* ===================================================================== *)

(** ** ExpenseList: what is listed, and in which order *)

Section ListProperties.
Import ExpenseList.
Variable newDate : option string -> JS.Date.
Variable subMonths : JS.Date -> Z -> JS.Date.
Variable toLowerCase : string -> string.

Local Abbreviation filtered := (ExpenseList.filtered newDate subMonths toLowerCase).
Local Abbreviation filteredExpenses := (ExpenseList.filteredExpenses newDate subMonths toLowerCase).
Local Abbreviation lists := (ExpenseList.lists newDate subMonths toLowerCase).
Local Abbreviation passesFilters := (ExpenseList.passesFilters newDate subMonths toLowerCase).
Local Abbreviation render := (ExpenseList.render newDate subMonths toLowerCase).
Local Abbreviation compareFn := (ExpenseList.compareFn newDate).

Lemma StronglySorted_precedes {A : Type} (R : A -> A -> Prop) (a b : A) (l : list A) :
  StronglySorted R l -> precedes a b l -> R a b.
Proof.
  induction 1 as [|x l HS IH Hx]; intros H.
  - destruct H as (l1 & l2 & l3 & E). now destruct l1.
  - apply precedes_inv in H as [[-> Hb] | H]; [|now apply IH].
    rewrite Forall_forall in Hx. now apply Hx.
Qed.

(** X1.  Whatever the sort order, the comparator and the engine: the
    list holds the rows that pass the filters, each as often as the input
    holds it, and no other row. *)
Theorem listed_rows_are_the_passing_rows isIncome st now expenses rows :
  lists isIncome st now expenses rows ->
  Permutation rows (filter (passesFilters isIncome st now expenses) expenses)
  /\ (forall e, In e rows
                <-> In e expenses /\ passesFilters isIncome st now expenses e = true)
  /\ (List.length rows <= List.length expenses)%nat.
Proof.
  intros [Hperm _]. rewrite filtered_as_filter in Hperm.
  split; [exact Hperm|]. split.
  - intros e. rewrite <- filter_In. split; apply Permutation_in;
      [exact Hperm|now apply Permutation_sym].
  - rewrite (Permutation_length Hperm). apply filter_length_le.
Qed.

(** X2.  When every row's date converts, newest first lists no row before
    a later one, and oldest first no row before an earlier one. *)
Theorem listed_rows_in_date_order isIncome st now expenses rows a b ta tb :
  Forall (hasValidDate newDate) expenses ->
  lists isIncome st now expenses rows ->
  precedes a b rows ->
  newDate (Date a) = Some ta ->
  newDate (Date b) = Some tb ->
  (sortOrder st = "date-desc" -> tb <= ta)
  /\ (sortOrder st = "date-asc" -> ta <= tb).
Proof.
  intros Hvalid [_ Hl] Hprec Ha Hb.
  assert (Hvalid' : Forall (hasValidDate newDate) (filtered isIncome st now expenses)).
  { rewrite filtered_as_filter. rewrite Forall_forall in *.
    intros e He. apply filter_In in He. now apply Hvalid. }
  assert (Hab : forall order, order = "date-desc" \/ order = "date-asc" ->
                  sortOrder st = order -> compareFn order a b <> Gt).
  { intros order Horder E.
    destruct Hl as [Hsorted _].
    - rewrite E. now apply compareFn_consistent_on_dated_rows.
    - rewrite E in Hsorted.
      exact (StronglySorted_precedes _ a b rows Hsorted Hprec). }
  split; intros E.
  - pose proof (Hab "date-desc" (or_introl eq_refl) E) as H.
    unfold ExpenseList.compareFn in H. simpl in H. rewrite Ha, Hb in H.
    simpl in H. apply -> Z.compare_le_iff in H. lia.
  - pose proof (Hab "date-asc" (or_intror eq_refl) E) as H.
    unfold ExpenseList.compareFn in H. simpl in H. rewrite Ha, Hb in H.
    simpl in H. apply -> Z.compare_le_iff in H. lia.
Qed.

(** X3.  A listed row has a positive amount on the table's side, and
    with a category chosen it carries exactly that category. *)
Theorem listed_rows_pass_side_and_category isIncome st now expenses rows e :
  lists isIncome st now expenses rows ->
  In e rows ->
  JS.gtZero (if isIncome then Income_amount e else Expense_amount e) = true
  /\ (filterCategory st <> "" -> filterCategory st <> "All" ->
      Category e = Some (filterCategory st)).
Proof.
  intros [Hperm _] Hin.
  apply (Permutation_in _ Hperm) in Hin.
  rewrite filtered_as_filter in Hin. apply filter_In in Hin.
  destruct Hin as [_ Hp]. unfold ExpenseList.passesFilters in Hp.
  rewrite !andb_true_iff in Hp. destruct Hp as [[[Hs _] Hc] _]. split.
  - unfold sideOk in Hs. now destruct isIncome.
  - intros Hne Hall. unfold categoryOk, categoryIs in Hc.
    destruct (filterCategory st) as [|c s] eqn:Ec; [contradiction|].
    apply String.eqb_neq in Hall. rewrite Hall in Hc. simpl in Hc.
    destruct (Category e) as [c'|]; [|discriminate Hc].
    apply String.eqb_eq in Hc. now subst.
Qed.


End ListProperties.

Section Categories.
Import ExpenseList.
Variable compareStrings : string -> string -> comparison.

Lemma fold_setAdd_In (values seen : list string) (c : string) :
  In c (fold_left JS.setAdd values seen) <-> In c seen \/ In c values.
Proof.
  revert seen. induction values as [|v values IH]; intros seen; simpl.
  - tauto.
  - rewrite IH. unfold JS.setAdd.
    destruct (existsb (String.eqb v) seen) eqn:E.
    + apply existsb_exists in E as (x & Hx & Ex).
      apply String.eqb_eq in Ex. subst x.
      split; [tauto|]. intros [H | [<- | H]]; auto.
    + rewrite in_app_iff. simpl. tauto.
Qed.

Lemma fold_setAdd_NoDup (values seen : list string) :
  NoDup seen -> NoDup (fold_left JS.setAdd values seen).
Proof.
  revert seen. induction values as [|v values IH]; intros seen Hseen; simpl.
  - exact Hseen.
  - apply IH. unfold JS.setAdd.
    destruct (existsb (String.eqb v) seen) eqn:E; [exact Hseen|].
    apply NoDup_app; [exact Hseen|repeat constructor; easy|].
    intros x Hx [Ev | []]. subst x.
    assert (Hex : existsb (String.eqb v) seen = true).
    { apply existsb_exists. exists v. split; [exact Hx|apply String.eqb_refl]. }
    congruence.
Qed.

Lemma namedCategories_In (expenses : list Expense) (c : string) :
  In c (namedCategories expenses)
  <-> c <> ""%string /\ exists e, In e expenses /\ Category e = Some c.
Proof.
  unfold namedCategories. rewrite in_flat_map. split.
  - intros (e & He & Hc). destruct (Category e) as [c'|] eqn:Ec; [|destruct Hc].
    destruct c' as [|x s]; simpl in Hc; [destruct Hc|].
    destruct Hc as [<- | []]. split; [discriminate|]. now exists e.
  - intros (Hne & e & He & Ec). exists e. split; [exact He|].
    rewrite Ec. destruct c; [contradiction|]. now left.
Qed.

(** X5.  The options of the category select: "All" first, then every
    non-empty category that some row carries, each once, and nothing
    else. *)
Theorem categories_options (expenses : list Expense) :
  hd_error (categories compareStrings expenses) = Some "All"%string
  /\ NoDup (tl (categories compareStrings expenses))
  /\ (forall c, In c (tl (categories compareStrings expenses))
                <-> c <> ""%string
                    /\ exists e, In e expenses /\ Category e = Some c).
Proof.
  unfold categories. simpl. split; [reflexivity|]. split.
  - apply (Permutation_NoDup (Permutation_sym (sort_perm _ _))).
    apply fold_setAdd_NoDup. constructor.
  - intros c. rewrite sort_In. unfold JS.newSet.
    rewrite fold_setAdd_In, namedCategories_In. simpl. tauto.
Qed.

End Categories.

Lemma listed_rows_are_the_passing_rows_witness :
  ExpenseList.lists UTC.newDate UTC.subMonths ASCII.toLowerCase false
    (ExpenseList.withDateRange ExpenseList.initialState "all") 0
    [Sample.groceries; Sample.cinema; Sample.undated; Sample.skiPass]
    [Sample.skiPass; Sample.cinema; Sample.groceries; Sample.undated]
  /\ Permutation
       [Sample.skiPass; Sample.cinema; Sample.groceries; Sample.undated]
       (filter (ExpenseList.passesFilters UTC.newDate UTC.subMonths
                  ASCII.toLowerCase false
                  (ExpenseList.withDateRange ExpenseList.initialState "all") 0
                  [Sample.groceries; Sample.cinema; Sample.undated; Sample.skiPass])
               [Sample.groceries; Sample.cinema; Sample.undated; Sample.skiPass]).
Proof.
  split; [exact undated_rows_may_be_listed|].
  exact (proj1 (listed_rows_are_the_passing_rows UTC.newDate UTC.subMonths
                  ASCII.toLowerCase false
                  (ExpenseList.withDateRange ExpenseList.initialState "all") 0
                  _ _ undated_rows_may_be_listed)).
Defined.

Lemma sample_rows_listed :
  ExpenseList.lists UTC.newDate UTC.subMonths ASCII.toLowerCase false
    ExpenseList.initialState 0
    [Sample.groceries; Sample.cinema; Sample.rent]
    [Sample.cinema; Sample.groceries; Sample.rent].
Proof.
  exact (sort_may_return
           (ExpenseList.compareFn UTC.newDate "date-desc")
           [Sample.groceries; Sample.cinema; Sample.rent]).
Defined.

(** The row of 2024-03-20 is listed before the row of 2024-03-15. *)
Lemma listed_rows_in_date_order_witness :
  Forall (ExpenseList.hasValidDate UTC.newDate)
         [Sample.groceries; Sample.cinema; Sample.rent]
  /\ precedes Sample.cinema Sample.groceries
              [Sample.cinema; Sample.groceries; Sample.rent]
  /\ UTC.newDate (ExpenseList.Date Sample.cinema) = Some 1710892800000
  /\ UTC.newDate (ExpenseList.Date Sample.groceries) = Some 1710460800000
  /\ (ExpenseList.sortOrder ExpenseList.initialState = "date-desc"%string ->
      1710460800000 <= 1710892800000).
Proof.
  assert (Hp : precedes Sample.cinema Sample.groceries
                        [Sample.cinema; Sample.groceries; Sample.rent])
    by (now exists [], [], [Sample.rent]).
  assert (Ha : UTC.newDate (ExpenseList.Date Sample.cinema) = Some 1710892800000)
    by (vm_compute; reflexivity).
  assert (Hb : UTC.newDate (ExpenseList.Date Sample.groceries) = Some 1710460800000)
    by (vm_compute; reflexivity).
  split; [exact sample_rows_dated|]. split; [exact Hp|].
  split; [exact Ha|]. split; [exact Hb|].
  exact (proj1 (listed_rows_in_date_order UTC.newDate UTC.subMonths
                  ASCII.toLowerCase false ExpenseList.initialState 0
                  [Sample.groceries; Sample.cinema; Sample.rent]
                  [Sample.cinema; Sample.groceries; Sample.rent]
                  Sample.cinema Sample.groceries _ _
                  sample_rows_dated sample_rows_listed Hp Ha Hb)).
Defined.

(** "Sport" chosen in the select, "All Time", then "Update Table": the
    one row listed is an expense of the category "Sport". *)
Lemma listed_rows_pass_side_and_category_witness :
  ExpenseList.lists UTC.newDate UTC.subMonths ASCII.toLowerCase false
    (ExpenseList.applyFilters
       (ExpenseList.setTempFilterCategory "Sport"
          (ExpenseList.setTempDateRange "all" ExpenseList.initialState))) 0
    [Sample.cinema; Sample.skiPass] [Sample.skiPass]
  /\ In Sample.skiPass [Sample.skiPass]
  /\ ExpenseList.Category Sample.skiPass = Some "Sport"%string.
Proof.
  assert (Hl : ExpenseList.lists UTC.newDate UTC.subMonths ASCII.toLowerCase false
                 (ExpenseList.applyFilters
                    (ExpenseList.setTempFilterCategory "Sport"
                       (ExpenseList.setTempDateRange "all" ExpenseList.initialState))) 0
                 [Sample.cinema; Sample.skiPass] [Sample.skiPass]).
  { exact (sort_may_return
             (ExpenseList.compareFn UTC.newDate "date-desc") [Sample.skiPass]). }
  assert (Hin : In Sample.skiPass [Sample.skiPass]) by (now left).
  split; [exact Hl|]. split; [exact Hin|].
  apply (proj2 (listed_rows_pass_side_and_category UTC.newDate UTC.subMonths
                  ASCII.toLowerCase false _ 0 _ _ Sample.skiPass Hl Hin));
    discriminate.
Defined.

(** ** Dashboard: the badge at a zero total, the missing date range, the
       colours *)

Lemma zero_total_percent (s : Dashboard.Summary) :
  PrimFloat.is_zero (Dashboard.total_expenses s) = true ->
  Prim2SF (Dashboard.netPercent s) = S754_nan
  \/ exists sg, Prim2SF (Dashboard.netPercent s) = S754_infinity sg.
Proof.
  unfold Dashboard.netPercent, PrimFloat.is_zero.
  generalize (Dashboard.total_expenses s) (Dashboard.net s). intros z n Hz.
  rewrite eqb_spec in Hz.
  assert (Ez : exists sg, Prim2SF z = S754_zero sg).
  { change (Prim2SF 0) with (S754_zero false) in Hz.
    destruct (Prim2SF z) as [sg|[]| |[] m e]; try discriminate Hz. now exists sg. }
  destruct Ez as (sg & Ez).
  rewrite mul_spec, div_spec, abs_spec, Ez.
  change (Prim2SF 100) with (S754_finite false 7036874417766400 (-46)).
  destruct (Prim2SF n) as [sn|sn| |sn m e]; simpl; eauto.
Qed.

(** X6.  Whatever the net balance, with a zero total of expenses the
    badge under the net balance never shows a percentage: it reads NaN or
    an infinity after its sign. *)
Theorem badge_of_zero_total (s : Dashboard.Summary) :
  PrimFloat.is_zero (Dashboard.total_expenses s) = true ->
  exists text,
    Dashboard.balanceBadge s
    = Some ((if (0 <=? Dashboard.net s)%float then "+" else "-")
            ++ " " ++ text ++ "%")%string
    /\ In text ["NaN"; "Infinity"; "-Infinity"]%string.
Proof.
  intros Hz. unfold Dashboard.balanceBadge, Dashboard.toFixed.
  destruct (zero_total_percent s Hz) as [E | ([] & E)]; rewrite E.
  - exists "NaN"%string. split; [reflexivity|now left].
  - exists "-Infinity"%string. split; [reflexivity|now right; right; left].
  - exists "Infinity"%string. split; [reflexivity|now right; left].
Qed.

Lemma badge_of_zero_total_witness :
  PrimFloat.is_zero (Dashboard.total_expenses Sample.incomeOnlySummary) = true
  /\ exists text,
       Dashboard.balanceBadge Sample.incomeOnlySummary
       = Some ((if (0 <=? Dashboard.net Sample.incomeOnlySummary)%float
                then "+" else "-") ++ " " ++ text ++ "%")%string
       /\ In text ["NaN"; "Infinity"; "-Infinity"]%string.
Proof.
  split; [reflexivity|].
  exact (badge_of_zero_total Sample.incomeOnlySummary eq_refl).
Defined.



(** X8.  Every cell of a chart gets one of the ten colours, whatever its
    index, and the colours repeat with period ten. *)
Theorem cellColor_defined (index : nat) :
  (exists color, Dashboard.cellColor index = Some color
                 /\ In color Dashboard.COLORS)
  /\ Dashboard.cellColor (index + 10) = Dashboard.cellColor index.
Proof.
  unfold Dashboard.cellColor. split.
  - destruct (nth_error Dashboard.COLORS (index mod List.length Dashboard.COLORS))
      as [color|] eqn:E.
    + exists color. split; [reflexivity|]. eapply nth_error_In, E.
    + apply nth_error_None in E.
      pose proof (Nat.mod_upper_bound index (List.length Dashboard.COLORS)) as H.
      simpl in *. lia.
  - change (List.length Dashboard.COLORS) with 10%nat.
    replace (index + 10)%nat with (index + 1 * 10)%nat by lia.
    now rewrite Nat.Div0.mod_add.
Qed.

(** ** AIInsights: how a request settles *)

Section InsightsProperties.
Import Insights.
Variable VITE_API_URL : option string.
Variable backend : Request -> Reply.

Local Abbreviation getInsights := (Insights.getInsights VITE_API_URL).
Local Abbreviation getInsightsChat := (Insights.getInsightsChat VITE_API_URL).
Local Abbreviation insightsRequest := (Insights.insightsRequest VITE_API_URL).

Lemma onRejected_other (status : option Z) (detail : option string) :
  status <> Some 403 ->
  onRejected status detail
  = setError (Some (orElse detail
      "Failed to get AI insights. Make sure ANTHROPIC_API_KEY is set.")).
Proof.
  intros Hne. unfold onRejected.
  destruct status as [[|p|p]|]; try reflexivity.
  do 9 (destruct p as [p|p|]; try reflexivity).
  now contradiction Hne.
Qed.

(** X9.  A request that was sent always settles: the spinner is off
    again whatever the backend answered.  A failure other than 403 shows
    the backend's [detail], or the hint at the API key when there is none,
    asks for no login and keeps the insights shown before. *)
Theorem getInsights_settles (isAuthenticated : JS.Value)
        (query : option string) (w : World) :
  JS.truthy isAuthenticated = true ->
  let after := exec (getInsights isAuthenticated backend query) w in
  loading after = false
  /\ customQuery after = customQuery w
  /\ (forall status detail,
        backend (insightsRequest query false) = Rejected status detail ->
        status <> Some 403 ->
        error after
        = Some (orElse detail
            "Failed to get AI insights. Make sure ANTHROPIC_API_KEY is set.")
        /\ insights after = insights w
        /\ loginClicks after = loginClicks w).
Proof.
  intros Hauth after. subst after.
  unfold Insights.getInsights, Insights.insightsRequest.
  rewrite Hauth. cbn [negb].
  unfold exec, bind, axios_post, setLoading, setError. simpl.
  split; [|split].
  - destruct (backend _) as [data | status detail]; [reflexivity|].
    unfold onRejected.
    destruct status as [[|p|p]|]; try reflexivity.
    do 9 (destruct p as [p|p|]; try reflexivity).
  - destruct (backend _) as [data | status detail]; [reflexivity|].
    unfold onRejected.
    destruct status as [[|p|p]|]; try reflexivity.
    do 9 (destruct p as [p|p|]; try reflexivity).
  - intros status detail E Hne. rewrite E.
    rewrite (onRejected_other status detail Hne). repeat split; reflexivity.
Qed.

(** X10.  In the chat revision a failed request takes the question back
    out of the chat: after any rejection the history is what it was
    before, and the input keeps the question. *)
Theorem chat_failure_restores_history (isAuthenticated : JS.Value)
        (query : option string) (w : World) (status : option Z)
        (detail : option string) :
  JS.truthy isAuthenticated = true ->
  backend (insightsRequest query true) = Rejected status detail ->
  let after := exec (getInsightsChat isAuthenticated backend query) w in
  chatHistory after = chatHistory w
  /\ customQuery after = customQuery w
  /\ loading after = false
  /\ posted after = posted w ++ [insightsRequest query true].
Proof.
  intros Hauth E after. subst after.
  unfold Insights.getInsightsChat, Insights.insightsRequest in *.
  rewrite Hauth. cbn [negb].
  unfold exec, bind, axios_post, setLoading, setError, setChatHistory. simpl.
  rewrite E. simpl. rewrite dropLast_last.
  unfold onRejected.
  destruct status as [[|p|p]|]; try (repeat split; reflexivity).
  do 9 (destruct p as [p|p|]; try (repeat split; reflexivity)).
Qed.


End InsightsProperties.

Lemma getInsights_settles_witness :
  JS.truthy (JS.Bool true) = true
  /\ Insights.loading
       (Insights.exec
          (Insights.getInsights None (JS.Bool true) Sample.outage
             (Some "Analyze my restaurant spending habits"))
          Insights.initialWorld) = false
  /\ Insights.error
       (Insights.exec
          (Insights.getInsights None (JS.Bool true) Sample.outage
             (Some "Analyze my restaurant spending habits"))
          Insights.initialWorld)
     = Some "Failed to get AI insights. Make sure ANTHROPIC_API_KEY is set."%string.
Proof.
  pose proof (getInsights_settles None Sample.outage (JS.Bool true)
                (Some "Analyze my restaurant spending habits"%string)
                Insights.initialWorld eq_refl) as H.
  cbv zeta in H. destruct H as (Hloading & _ & Hrejected).
  split; [reflexivity|]. split; [exact Hloading|].
  refine (proj1 (Hrejected None None eq_refl _)). discriminate.
Defined.

Lemma chat_failure_restores_history_witness :
  JS.truthy (JS.Bool true) = true
  /\ Sample.doorman
       (Insights.insightsRequest None
          (Some "Analyze my restaurant spending habits"%string) true)
     = Insights.Rejected (Some 403) (Some "Authentication required"%string)
  /\ Insights.chatHistory
       (Insights.exec
          (Insights.getInsightsChat None (JS.Bool true) Sample.doorman
             (Some "Analyze my restaurant spending habits"))
          Insights.initialWorld) = [].
Proof.
  split; [reflexivity|]. split; [reflexivity|].
  exact (proj1 (chat_failure_restores_history None Sample.doorman (JS.Bool true)
                  (Some "Analyze my restaurant spending habits"%string)
                  Insights.initialWorld _ _ eq_refl eq_refl)).
Defined.

(** ** App: loading the data, logging in and out *)

Section AppProperties.
Import App.
Variable server : Server.
Variable searchParams : list (string * string) -> string.

Local Abbreviation checkAuthStatus := (App.checkAuthStatus server).
Local Abbreviation fetchSummary := (App.fetchSummary server).
Local Abbreviation fetchExpenses := (App.fetchExpenses server searchParams).
Local Abbreviation fetchIncome := (App.fetchIncome server).
Local Abbreviation mount := (App.mount server searchParams).
Local Abbreviation handleLogin := (App.handleLogin server searchParams).
Local Abbreviation handleLogout := (App.handleLogout server searchParams).

Ltac settle :=
  repeat match goal with
         | |- context [match ?r with Resolved _ => _ | Rejected _ => _ end] =>
             destruct r
         end.



(** [handleLogin] when the backend answers "not authenticated". *)
Lemma handleLogin_invalid (token : string) (w : World) (v : JS.Value) :
  loginOf server (List.length (sent w)) token = Resolved v ->
  JS.truthy v = false ->
  handleLogin token w
  = (Thrown (newError "Invalid token. Please check your token and try again."),
     logged (PostLogin token) w).
Proof.
  unfold App.handleLogin, tryCatch, bind, await, throw, ret.
  intros E Hv. rewrite E, Hv. reflexivity.
Qed.

(** [handleLogin] when the backend answers "authenticated": it returns,
    with the dialog closed. *)
Lemma handleLogin_valid (token : string) (w : World) (v : JS.Value) :
  loginOf server (List.length (sent w)) token = Resolved v ->
  JS.truthy v = true ->
  exists w', handleLogin token w = (Returned tt, w') /\ showLogin w' = false.
Proof.
  intros E Hv.
  unfold App.handleLogin, App.checkAuthStatus, App.fetchSummary,
    App.fetchExpenses, App.fetchIncome,
    tryFinally, tryCatch, bind, await, set, ret, throw.
  rewrite E, Hv. simpl. settle; simpl; eexists; split; reflexivity.
Qed.

(** X14.  A login the backend does not accept changes nothing but the
    log: whether the backend answers "not authenticated" or the request
    fails, the handler throws (the message being the backend's [detail],
    else the error's message, else "Login failed"), no data is refetched,
    and the dialog stays open. *)
Theorem handleLogin_refused (token : string) (w : World) :
  (forall v,
      loginOf server (List.length (sent w)) token = Resolved v ->
      JS.truthy v = false ->
      handleLogin token w
      = (Thrown (newError "Invalid token. Please check your token and try again."),
         logged (PostLogin token) w))
  /\ (forall e,
        loginOf server (List.length (sent w)) token = Rejected e ->
        handleLogin token w
        = (Thrown (newError (firstText (detail e)
                               (firstText (message e) "Login failed"))),
           logged (PostLogin token) w)).
Proof.
  split.
  - intros v E Hv. exact (handleLogin_invalid token w v E Hv).
  - intros e E. unfold App.handleLogin, tryCatch, bind, await, throw, ret.
    rewrite E. reflexivity.
Qed.

(** X15.  A login the backend accepts refreshes everything and closes the
    dialog: the login request is followed by the status request and the
    three refetches, in this order, the handler returns, the spinner is
    off and the auth status is set (to the guest status if the status
    request failed). *)
Theorem handleLogin_accepted (token : string) (w : World) (v : JS.Value) :
  loginOf server (List.length (sent w)) token = Resolved v ->
  JS.truthy v = true ->
  let after := exec (handleLogin token) w in
  outcome (handleLogin token) w = Returned tt
  /\ showLogin after = false
  /\ loading after = false
  /\ sent after
     = sent w ++ [ PostLogin token; Get "/api/auth/status"; Get "/api/summary";
                   Get ("/api/expenses?" ++ searchParams [])%string;
                   Get "/api/income" ]
  /\ (forall status,
        statusOf server (S (List.length (sent w))) = Resolved status ->
        authStatus after = Some status)
  /\ (forall e,
        statusOf server (S (List.length (sent w))) = Rejected e ->
        authStatus after = Some guestStatus).
Proof.
  intros E Hv after. subst after.
  unfold App.handleLogin, App.checkAuthStatus, App.fetchSummary,
    App.fetchExpenses, App.fetchIncome,
    exec, outcome, tryFinally, tryCatch, bind, await, set, ret, throw.
  rewrite E, Hv. simpl. rewrite length_app. simpl. rewrite Nat.add_1_r.
  destruct (statusOf server (S (List.length (sent w)))) as [status | e]; simpl;
    settle; simpl; rewrite <- ?app_assoc;
    (split; [reflexivity|]); (split; [reflexivity|]); (split; [reflexivity|]);
    (split; [reflexivity|]);
    split; intros x Ex; inversion Ex; reflexivity.
Qed.

(** X16.  After the effect on mount the auth status is never [null]
    again, the spinner is off, and the four requests have been sent; the
    prop handed to AIInsights is the [authenticated] field of the status
    the backend gave, and [false] when the status request failed. *)
Theorem mount_settles (w : World) :
  let after := exec mount w in
  outcome mount w = Returned tt
  /\ loading after = false
  /\ sent after
     = sent w ++ [ Get "/api/auth/status"; Get "/api/summary";
                   Get ("/api/expenses?" ++ searchParams [])%string;
                   Get "/api/income" ]
  /\ (forall status,
        statusOf server (List.length (sent w)) = Resolved status ->
        isAuthenticatedProp after = authenticated status)
  /\ (forall e,
        statusOf server (List.length (sent w)) = Rejected e ->
        isAuthenticatedProp after = JS.Bool false).
Proof.
  intros after. subst after.
  unfold App.mount, App.checkAuthStatus, App.fetchSummary,
    App.fetchExpenses, App.fetchIncome, isAuthenticatedProp,
    exec, outcome, tryFinally, tryCatch, bind, await, set, ret.
  simpl.
  destruct (statusOf server (List.length (sent w))) as [status | e]; simpl;
    settle; simpl; rewrite <- ?app_assoc;
    (split; [reflexivity|]); (split; [reflexivity|]); (split; [reflexivity|]);
    split; intros x Ex; inversion Ex; reflexivity.
Qed.

End AppProperties.

(** ** Login: the token form *)

Section LoginProperties.
Import Login.
Variable trim : string -> string.


(** X18.  The form on top of [App.handleLogin]: a token the backend does
    not authenticate leaves the dialog open with the message "Invalid
    token. Please check your token and try again." under the input; a
    token it accepts closes the dialog and leaves no error. *)
Theorem login_dialog_outcome (server : App.Server)
        (searchParams : list (string * string) -> string)
        (st : State) (w : App.World) (v : JS.Value) :
  JS.truthyStr (trim (token st)) = true ->
  App.loginOf server (List.length (App.sent w)) (token st) = App.Resolved v ->
  let after := handleSubmit (appLogin server searchParams) trim st w in
  loading (fst after) = false
  /\ (JS.truthy v = false ->
      error (fst after)
      = "Invalid token. Please check your token and try again."%string
      /\ App.showLogin (snd after) = App.showLogin w
      /\ App.authStatus (snd after) = App.authStatus w)
  /\ (JS.truthy v = true ->
      error (fst after) = ""%string
      /\ App.showLogin (snd after) = false).
Proof.
  intros Htoken E after. subst after. unfold handleSubmit, appLogin.
  rewrite Htoken. cbn [negb].
  destruct (JS.truthy v) eqn:Hv.
  - destruct (handleLogin_valid server searchParams (token st) w v E Hv)
      as (w' & -> & Hshow).
    simpl. split; [reflexivity|]. split; [discriminate|]. intros _. now split.
  - rewrite (handleLogin_invalid server searchParams (token st) w v E Hv).
    simpl. split; [reflexivity|]. split; [|discriminate].
    intros _. repeat split.
Qed.

End LoginProperties.

Lemma handleLogin_accepted_witness :
  App.loginOf Sample.server (List.length (App.sent App.initialWorld)) "tok-alice"
  = App.Resolved (JS.Bool true)
  /\ JS.truthy (JS.Bool true) = true
  /\ App.showLogin
       (App.exec (App.handleLogin Sample.server Sample.noParams "tok-alice")
          (App.withShowLogin true App.initialWorld)) = false
  /\ App.sent
       (App.exec (App.handleLogin Sample.server Sample.noParams "tok-alice")
          (App.withShowLogin true App.initialWorld))
     = [ App.PostLogin "tok-alice"; App.Get "/api/auth/status";
         App.Get "/api/summary"; App.Get "/api/expenses?"; App.Get "/api/income" ].
Proof.
  pose proof (handleLogin_accepted Sample.server Sample.noParams "tok-alice"
                (App.withShowLogin true App.initialWorld) (JS.Bool true)
                eq_refl eq_refl) as H.
  cbv zeta in H. destruct H as (_ & Hshow & _ & Hsent & _).
  split; [reflexivity|]. split; [reflexivity|]. split; [exact Hshow|exact Hsent].
Defined.


Lemma login_dialog_outcome_witness :
  JS.truthyStr (ASCII.trim (Login.token (Login.changeToken "guess" Login.initialState)))
  = true
  /\ App.loginOf Sample.server (List.length (App.sent App.initialWorld)) "guess"
     = App.Resolved (JS.Bool false)
  /\ Login.error
       (fst (Login.handleSubmit (Login.appLogin Sample.server Sample.noParams)
               ASCII.trim (Login.changeToken "guess" Login.initialState)
               App.initialWorld))
     = "Invalid token. Please check your token and try again."%string.
Proof.
  pose proof (login_dialog_outcome ASCII.trim Sample.server Sample.noParams
                (Login.changeToken "guess" Login.initialState)
                App.initialWorld (JS.Bool false) eq_refl eq_refl) as H.
  cbv zeta in H. destruct H as (_ & Hrefused & _).
  split; [reflexivity|]. split; [reflexivity|].
  exact (proj1 (Hrefused eq_refl)).
Defined.
